(** * Block state code generator (scripts/blocks.py)

    A shallow embedding of the script that reads the vanilla server's
    blocks.json data report and produces the Rust source of the [Block]
    enum together with [block_state_id], [from_block_state_id], [name] and
    [property_names].

    Conventions of the embedding.
    - Python strings are [string]; identifiers of the data report are ASCII,
      so case mapping and the digit test are the ASCII ones.
    - The loaded document is an ordered association list (the script loads
      it with [object_pairs_hook=OrderedDict]); a key that the report may
      leave out (["properties"]) is an [option].
    - [x += s] on one of the seven code buffers is an append on the
      corresponding field of [gen_state]; an uncaught Python exception is
      the [Raise] outcome of the [result] monad.
    - The emitted Rust text is related to a structured reading of it (match
      arms), on which the meaning of the generated functions is defined. *)

From Stdlib Require Import Ascii.
From stdpp Require Import base option list strings gmap pretty.

(** ** Python string primitives *)

Module Py.

Definition nl : string := String "010"%char "".
Definition dq : string := String "034"%char "".

(** [s[n:]] *)
Fixpoint slice_from (n : nat) (s : string) : string :=
  match n, s with
  | O, _ => s
  | S _, "" => ""
  | S n', String _ s' => slice_from n' s'
  end.

(** [s.split(sep)] for a one-character separator. *)
Fixpoint split (sep : ascii) (s : string) : list string :=
  match s with
  | "" => [""]
  | String c s' =>
      if Ascii.eqb c sep then "" :: split sep s'
      else match split sep s' with
           | w :: ws => String c w :: ws
           | [] => [String c ""]
           end
  end.

Definition is_lower (c : ascii) : bool :=
  (97 <=? nat_of_ascii c) && (nat_of_ascii c <=? 122).
Definition is_upper (c : ascii) : bool :=
  (65 <=? nat_of_ascii c) && (nat_of_ascii c <=? 90).
Definition is_digit (c : ascii) : bool :=
  (48 <=? nat_of_ascii c) && (nat_of_ascii c <=? 57).
Definition to_upper (c : ascii) : ascii :=
  if is_lower c then ascii_of_nat (nat_of_ascii c - 32) else c.
Definition to_lower (c : ascii) : ascii :=
  if is_upper c then ascii_of_nat (nat_of_ascii c + 32) else c.

(** [s.title()]: a cased character is upper-cased when the character
    before it is not cased, and lower-cased otherwise. *)
Fixpoint title_go (previous_is_cased : bool) (s : string) : string :=
  match s with
  | "" => ""
  | String c s' =>
      if is_lower c then
        String (if previous_is_cased then c else to_upper c) (title_go true s')
      else if is_upper c then
        String (if previous_is_cased then to_lower c else c) (title_go true s')
      else String c (title_go false s')
  end.
Definition title (s : string) : string := title_go false s.

Fixpoint all_chars (p : ascii → bool) (s : string) : bool :=
  match s with
  | "" => true
  | String c s' => p c && all_chars p s'
  end.

(** [s.isdigit()]: at least one character, and all of them digits. *)
Definition isdigit (s : string) : bool :=
  match s with
  | "" => false
  | _ => all_chars is_digit s
  end.

(** [sep.join(l)] *)
Definition join (sep : string) (l : list string) : string :=
  String.concat sep l.

(** [x in l] on a list of strings. *)
Definition elem (x : string) (l : list string) : bool :=
  existsb (String.eqb x) l.

(** [str(n)] of an integer. *)
Definition str (n : Z) : string := pretty n.

End Py.

(** ** Module-level constants and the pure helpers of the script *)

Definition KEYWORDS : list string := ["type"; "in"].

Definition KNOWN_PROPERTIES : list string :=
  ["facing"; "axis"; "half"; "face"; "shape"; "hinge"; "part"].

Definition DERIVES : string :=
  "#[derive(Debug, Clone, Copy, PartialEq, Eq, Hash)]" +:+ Py.nl.

Definition strip_minecraft_identifier (s : string) : string :=
  Py.slice_from 10 s.

Definition snake_to_upper_camel (s : string) : string :=
  let components := Py.split "_" s in
  Py.join "" (map Py.title components).

Definition get_type_from_value (val : string) : string :=
  if String.eqb val "true" || String.eqb val "false" then "bool"
  else if Py.isdigit val then "i32"
  else "_enum".

Definition process_property_name (s : string) : string :=
  if Py.elem s KEYWORDS then s +:+ "_" else s.

(** ** The loaded document *)

(** One entry of [obj["states"]]: [state["id"]] and [state["properties"]]. *)
Record State := mkState {
  state_id : Z;
  state_properties : option (list (string * string))
}.

(** One block object: [obj["properties"]] (property name to the list of
    its values) and [obj["states"]]. *)
Record BlockObj := mkBlock {
  properties : option (list (string * list string));
  states : list State
}.

(** [data]: block identifier to block object, in document order. *)
Definition Data := list (string * BlockObj).

(** ** Exceptions *)

Inductive exn :=
  | KeyError (key : string)
  | IndexError
  | IOError (path : string)
  | ValueError.

Inductive result (A : Type) :=
  | OK (a : A)
  | Raise (e : exn).
Arguments OK {A} a.
Arguments Raise {A} e.

#[global] Instance result_ret : MRet result := @OK.
#[global] Instance result_bind : MBind result := λ A B k m,
  match m with
  | OK a => k a
  | Raise e => Raise e
  end.

(** [obj[key]] on an optional key. *)
Definition getitem {A} (key : string) (o : option A) : result A :=
  match o with
  | Some a => OK a
  | None => Raise (KeyError key)
  end.

(** [l[0]] *)
Definition head_item {A} (l : list A) : result A :=
  match l with
  | a :: _ => OK a
  | [] => Raise IndexError
  end.

(** A loop whose body may raise. *)
Fixpoint for_each {A S} (body : A → S → result S) (l : list A) (s : S)
    : result S :=
  match l with
  | [] => OK s
  | a :: l' => s' ← body a s; for_each body l' s'
  end.

(** ** The generator, as the script runs it *)

(** The seven text buffers the script accumulates. *)
Record gen_state := mkGen {
  enum_code : string;
  block_state_id_code : string;
  from_block_state_id_code : string;
  state_code : string;
  end_code : string;
  name_code : string;
  property_names_code : string
}.

(** [buffer += s], one definition per buffer. *)
Definition add_enum_code (s : string) (g : gen_state) : gen_state :=
  mkGen (enum_code g +:+ s) (block_state_id_code g)
        (from_block_state_id_code g) (state_code g) (end_code g)
        (name_code g) (property_names_code g).
Definition add_block_state_id_code (s : string) (g : gen_state) : gen_state :=
  mkGen (enum_code g) (block_state_id_code g +:+ s)
        (from_block_state_id_code g) (state_code g) (end_code g)
        (name_code g) (property_names_code g).
Definition add_from_block_state_id_code (s : string) (g : gen_state)
    : gen_state :=
  mkGen (enum_code g) (block_state_id_code g)
        (from_block_state_id_code g +:+ s) (state_code g) (end_code g)
        (name_code g) (property_names_code g).
Definition add_state_code (s : string) (g : gen_state) : gen_state :=
  mkGen (enum_code g) (block_state_id_code g)
        (from_block_state_id_code g) (state_code g +:+ s) (end_code g)
        (name_code g) (property_names_code g).
Definition add_end_code (s : string) (g : gen_state) : gen_state :=
  mkGen (enum_code g) (block_state_id_code g)
        (from_block_state_id_code g) (state_code g) (end_code g +:+ s)
        (name_code g) (property_names_code g).
Definition add_name_code (s : string) (g : gen_state) : gen_state :=
  mkGen (enum_code g) (block_state_id_code g)
        (from_block_state_id_code g) (state_code g) (end_code g)
        (name_code g +:+ s) (property_names_code g).
Definition add_property_names_code (s : string) (g : gen_state) : gen_state :=
  mkGen (enum_code g) (block_state_id_code g)
        (from_block_state_id_code g) (state_code g) (end_code g)
        (name_code g) (property_names_code g +:+ s).

(** The buffers before the loop over the blocks (lines 82-136). *)
Definition known_enums_code : string :=
  DERIVES +:+ "pub enum Facing {" +:+
    "North, South, East, West, Up, Down, }" +:+ Py.nl +:+ Py.nl +:+
  DERIVES +:+ "pub enum Axis {" +:+ "X, Y, Z, }" +:+ Py.nl +:+ Py.nl +:+
  DERIVES +:+ "pub enum Half {" +:+
    "Upper, Lower, Top, Bottom, }" +:+ Py.nl +:+ Py.nl +:+
  DERIVES +:+ "pub enum Face {" +:+
    "Floor, Wall, Ceiling, }" +:+ Py.nl +:+ Py.nl +:+
  DERIVES +:+ "pub enum Shape {" +:+
    "Straight, InnerLeft, InnerRight, OuterLeft, OuterRight, AscendingNorth, AscendingEast, AscendingSouth, " +:+
    "AscendingWest, NorthEast, NorthWest, SouthEast, SouthWest, NorthSouth, EastWest," +:+
    Py.nl +:+ Py.nl +:+ "}" +:+
  DERIVES +:+ "pub enum Hinge {" +:+ "Left, Right, }" +:+ Py.nl +:+ Py.nl +:+
  DERIVES +:+ "pub enum Part {" +:+ "Head, Foot, }" +:+ Py.nl +:+ Py.nl.

Definition enum_code_header : string :=
  DERIVES +:+ "pub enum Block {" +:+ Py.nl.
Definition block_state_id_code_header : string :=
  "pub fn block_state_id(&self) -> u16 {" +:+ Py.nl +:+ "match self {".
Definition from_block_state_id_code_header : string :=
  "pub fn from_block_state_id(id: u16) -> Self {" +:+ Py.nl +:+ "match id {".
Definition name_code_header : string :=
  "pub fn name(&self) -> &'static str {" +:+ Py.nl +:+
  "match self {" +:+ Py.nl.
Definition property_names_code_header : string :=
  "pub fn property_names(&self) -> HashMap<&'static str, &'static str> {"
    +:+ Py.nl +:+
  "let mut m = HashMap::new();" +:+ Py.nl +:+
  "match self {" +:+ Py.nl.

Definition initial_state : gen_state :=
  mkGen enum_code_header block_state_id_code_header
        from_block_state_id_code_header "" known_enums_code
        name_code_header property_names_code_header.

(** Lines 170-196: one iteration of [for prop_name in props]. *)
Definition gen_property (camel : string) (p : string * list string)
    (g : gen_state) : result gen_state :=
  let '(prop_name, vals) := p in
  v0 ← head_item vals;
  let ty := get_type_from_value v0 in
  let ty := if Py.elem prop_name KNOWN_PROPERTIES
            then snake_to_upper_camel prop_name else ty in
  let '(ty, g) :=
    if String.eqb ty "_enum" then
      let ty := camel +:+ snake_to_upper_camel prop_name in
      let g := add_end_code (DERIVES +:+ "pub enum " +:+ ty +:+ " {") g in
      let g := foldl (λ g val,
                 add_end_code (snake_to_upper_camel val +:+ "," +:+ Py.nl) g)
                 g vals in
      (ty, add_end_code ("}" +:+ Py.nl +:+ Py.nl) g)
    else (ty, g) in
  let prop_name := process_property_name prop_name in
  let g := add_state_code
             ("pub " +:+ prop_name +:+ ": " +:+ ty +:+ "," +:+ Py.nl) g in
  let g := add_property_names_code
             ("m.insert(" +:+ Py.dq +:+ prop_name +:+ Py.dq +:+
              ", (&format!(" +:+ Py.dq +:+ "{:?}" +:+ Py.dq +:+ ", data." +:+
              prop_name +:+ ")).to_snake_case().as_str());") g in
  mret g.

(** Lines 214-221: the Rust expression for one property value of a state. *)
Definition rust_prop_val (camel prop_name prop_val : string) : string :=
  let ty := get_type_from_value prop_val in
  if String.eqb ty "_enum" then
    let ty := if Py.elem prop_name KNOWN_PROPERTIES
              then snake_to_upper_camel prop_name
              else camel +:+ snake_to_upper_camel prop_name in
    ty +:+ "::" +:+ snake_to_upper_camel prop_val
  else prop_val.

(** Lines 213-229: one iteration of the loop over [state_props]; the loop
    state is [count], [state_if_code] and the buffers. *)
Definition gen_state_property (camel : string)
    (acc : nat * string * gen_state) (p : string * string)
    : nat * string * gen_state :=
  let '(count, state_if_code, g) := acc in
  let '(prop_name, prop_val) := p in
  let prop_val := rust_prop_val camel prop_name prop_val in
  let state_if_code :=
    if negb (count =? 0) then state_if_code +:+ " && " else state_if_code in
  let state_if_code :=
    state_if_code +:+ "data." +:+ process_property_name prop_name +:+
    " == " +:+ prop_val in
  let count := count + 1 in
  let g := add_from_block_state_id_code
             (process_property_name prop_name +:+ ": " +:+ prop_val +:+
              "," +:+ Py.nl) g in
  (count, state_if_code, g).

(** Lines 206-232: one iteration of [for state in obj["states"]]. *)
Definition gen_state_arm (camel : string) (state : State)
    (acc : string * gen_state) : result (string * gen_state) :=
  let '(state_if_code, g) := acc in
  let state_if_code := state_if_code +:+ "if " in
  state_props ← getitem "properties" (state_properties state);
  let g := add_from_block_state_id_code
             (Py.str (state_id state) +:+ " => {" +:+ Py.nl +:+ "return Block::" +:+
              camel +:+ "(" +:+ camel +:+ "Data {") g in
  let '(_, state_if_code, g) :=
    foldl (gen_state_property camel) (0, state_if_code, g) state_props in
  let state_if_code :=
    state_if_code +:+ "{" +:+ Py.nl +:+ "return " +:+ Py.str (state_id state) +:+
    ";" +:+ Py.nl +:+ "}" +:+ Py.nl in
  let g := add_from_block_state_id_code ("});" +:+ Py.nl +:+ "}," +:+ Py.nl) g in
  mret (state_if_code, g).

(** Lines 138-236: one iteration of [for block_identifier in data]. *)
Definition gen_block (entry : string * BlockObj) (g : gen_state)
    : result gen_state :=
  let '(block_identifier, obj) := entry in
  let block_name := strip_minecraft_identifier block_identifier in
  let states := states obj in
  let single_state := length states =? 1 in
  let camel := snake_to_upper_camel block_name in
  let g := add_name_code ("Block::" +:+ camel) g in
  let g := if negb single_state then add_name_code "(_)" g else g in
  let g := add_name_code
             (" => " +:+ Py.dq +:+ block_identifier +:+ Py.dq +:+ "," +:+
              Py.nl) g in
  if single_state then
    state0 ← head_item states;
    let id := Py.str (state_id state0) in
    let g := add_enum_code (camel +:+ "," +:+ Py.nl) g in
    let g := add_block_state_id_code
               ("Block::" +:+ camel +:+ " => return " +:+ id +:+ "," +:+
                Py.nl) g in
    let g := add_from_block_state_id_code
               (id +:+ " => return Block::" +:+ camel +:+ "," +:+ Py.nl) g in
    mret g
  else
    let data_struct_name := camel +:+ "Data" in
    let g := add_state_code
               (DERIVES +:+ "pub struct " +:+ data_struct_name +:+ " {") g in
    let g := add_property_names_code
               ("Block::" +:+ camel +:+ "(data) => {" +:+ Py.nl) g in
    props ← getitem "properties" (properties obj);
    g ← for_each (gen_property camel) props g;
    let g := add_state_code ("}" +:+ Py.nl +:+ Py.nl) g in
    let g := add_property_names_code ("}," +:+ Py.nl) g in
    let g := add_enum_code
               (camel +:+ "(" +:+ data_struct_name +:+ ")," +:+ Py.nl) g in
    '(state_if_code, g) ← for_each (gen_state_arm camel) states ("", g);
    let g := add_block_state_id_code
               ("Block::" +:+ camel +:+ "(data) => {" +:+ Py.nl) g in
    let g := add_block_state_id_code state_if_code g in
    let g := add_block_state_id_code (Py.nl +:+ "}") g in
    mret g.

(** Lines 239-261: the text appended after the loop. *)
Definition from_block_state_id_code_footer : string :=
  "_ => panic!(" +:+ Py.dq +:+ "Unknown block state ID {}" +:+ Py.dq +:+
  ", id)," +:+
  Py.nl +:+ "}panic!(" +:+ Py.dq +:+ "Invalid block state ID {}" +:+ Py.dq +:+
  ", id);" +:+ Py.nl +:+ "}" +:+ Py.nl.
Definition block_state_id_code_footer : string :=
  "_ => panic!(" +:+ Py.dq +:+ "Invalid block state {:?}" +:+ Py.dq +:+
  ", self)," +:+ Py.nl +:+ "}" +:+ Py.nl +:+
  "panic!(" +:+ Py.dq +:+ "Invalid block state {:?}" +:+ Py.dq +:+
  ", self);}" +:+ Py.nl.
Definition property_names_code_footer : string :=
  "_ => ()," +:+ Py.nl +:+ "}" +:+ Py.nl +:+ "m" +:+ Py.nl +:+ "}" +:+ Py.nl.
Definition name_code_footer : string := "}" +:+ Py.nl +:+ "}" +:+ Py.nl.

Definition finish (g : gen_state) : gen_state :=
  let g := add_enum_code "}" g in
  let g := add_from_block_state_id_code from_block_state_id_code_footer g in
  let g := add_block_state_id_code block_state_id_code_footer g in
  let g := add_property_names_code property_names_code_footer g in
  add_name_code name_code_footer g.

(** Lines 82-261: all the code buffers for a loaded document. *)
Definition generate (data : Data) : result gen_state :=
  g ← for_each gen_block data initial_state;
  mret (finish g).

(** Lines 263-281: the text written to the output file, in write order. *)
Definition output_text (g : gen_state) : string :=
  "// This file was generated by /scripts/blocks.py" +:+ Py.nl +:+ Py.nl +:+
  "use std::collections::HashMap;" +:+ Py.nl +:+
  "use heck::SnakeCase;" +:+ Py.nl +:+ Py.nl +:+
  enum_code g +:+
  Py.nl +:+
  "impl Block {" +:+ Py.nl +:+
  block_state_id_code g +:+
  Py.nl +:+ Py.nl +:+
  from_block_state_id_code g +:+
  name_code g +:+
  Py.nl +:+
  property_names_code g +:+
  "}" +:+
  Py.nl +:+ state_code g +:+
  Py.nl +:+ end_code g.

(** ** The script as a program on a file system *)

Section main.

(** [json.load]: the parser of the standard library, [None] when the
    text is not a valid document of the expected shape. *)
Variable json_load : string → option Data.

(** The whole script: [sys.argv], the file system before; the exit
    status and the file system after. [open(in_path, "r+")] needs an
    existing file; [open(out_path, "w+")] creates the file or truncates
    it; the text is read when [json.load] runs. *)
Definition run (argv : list string) (files : gmap string string)
    : result unit * gmap string string :=
  match argv !! 1 with
  | None => (Raise IndexError, files)
  | Some in_path =>
    match argv !! 2 with
    | None => (Raise IndexError, files)
    | Some out_path =>
      match files !! in_path with
      | None => (Raise (IOError in_path), files)
      | Some _ =>
        let files := <[out_path := ""]> files in
        match files !! in_path ≫= json_load with
        | None => (Raise ValueError, files)
        | Some data =>
          match generate data with
          | Raise e => (Raise e, files)
          | OK g => (OK (), <[out_path := output_text g]> files)
          end
        end
      end
    end
  end.

Definition exit_status (r : result unit) : Z :=
  match r with
  | OK _ => 0
  | Raise _ => 1
  end.

End main.

(** ** The generated Rust code, read as match arms *)

Module Rust.

(** Pieces of text written one after the other. *)
Definition cat (l : list string) : string := foldr String.app "" l.
#[global] Arguments cat : simpl never.

(** A literal as the generator writes it into an arm. *)
Inductive lit :=
  | LBool (b : bool)
  | LInt (digits : string)
  | LPath (ty variant : string).

(** A Rust value of a field: [bool], [i32] or a field-less enum variant. *)
Inductive val :=
  | VBool (b : bool)
  | VInt (n : N)
  | VEnum (ty variant : string).

#[global] Instance val_eq_dec : EqDecision val.
Proof. solve_decision. Defined.

Definition digit_value (c : ascii) : N := N.of_nat (nat_of_ascii c - 48).

(** The number a decimal literal stands for, most significant digit first. *)
Definition int_value (digits : string) : N :=
  foldl (λ n c, n * 10 + digit_value c)%N 0%N (String.list_ascii_of_string digits).

Definition denote (l : lit) : val :=
  match l with
  | LBool b => VBool b
  | LInt digits => VInt (int_value digits)
  | LPath ty variant => VEnum ty variant
  end.

Definition render_lit (l : lit) : string :=
  match l with
  | LBool true => "true"
  | LBool false => "false"
  | LInt digits => digits
  | LPath ty variant => ty +:+ "::" +:+ variant
  end.

(** A value of the generated [Block] enum: a unit variant, or a variant
    carrying its data struct (field name to value). *)
Inductive block :=
  | Unit (variant : string)
  | Carrier (variant : string) (fields : gmap string val).

#[global] Instance block_eq_dec : EqDecision block.
Proof. solve_decision. Defined.

(** The right-hand side of an arm of [from_block_state_id]. *)
Inductive block_expr :=
  | EUnit (variant : string)
  | ECarrier (variant : string) (fields : list (string * lit)).

Definition eval_expr (e : block_expr) : block :=
  match e with
  | EUnit variant => Unit variant
  | ECarrier variant fields =>
      Carrier variant (list_to_map (prod_map id denote <$> fields))
  end.

(** *** [from_block_state_id] *)

Definition decode_arm : Type := Z * block_expr.

Definition render_field_init (f : string * lit) : string :=
  f.1 +:+ ": " +:+ render_lit f.2 +:+ "," +:+ Py.nl.

Definition render_decode_arm (a : decode_arm) : string :=
  match a.2 with
  | EUnit variant =>
      Py.str a.1 +:+ " => return Block::" +:+ variant +:+ "," +:+ Py.nl
  | ECarrier variant fields =>
      Py.str a.1 +:+ " => {" +:+ Py.nl +:+ "return Block::" +:+ variant +:+
      "(" +:+ variant +:+ "Data {" +:+
      cat (render_field_init <$> fields) +:+
      "});" +:+ Py.nl +:+ "}," +:+ Py.nl
  end.

(** [match id { ... }]: the first arm whose pattern is the code; the
    wildcard arm panics. *)
Definition from_block_state_id (arms : list decode_arm) (code : Z)
    : option block :=
  eval_expr ∘ snd <$> find (λ a, bool_decide (a.1 = code)) arms.

(** *** [block_state_id] *)

(** One [if c1 && ... && cn { return id; }]. *)
Definition state_test : Type := list (string * lit) * Z.

Inductive encode_arm :=
  | EncUnit (variant : string) (code : Z)
  | EncCarrier (variant : string) (tests : list state_test).

Fixpoint render_conds (first : bool) (conds : list (string * lit))
    : string :=
  match conds with
  | [] => ""
  | c :: conds' =>
      (if first then "" else " && ") +:+
      "data." +:+ c.1 +:+ " == " +:+ render_lit c.2 +:+
      render_conds false conds'
  end.

Definition render_test (t : state_test) : string :=
  "if " +:+ render_conds true t.1 +:+ "{" +:+ Py.nl +:+ "return " +:+
  Py.str t.2 +:+ ";" +:+ Py.nl +:+ "}" +:+ Py.nl.

Definition render_encode_arm (a : encode_arm) : string :=
  match a with
  | EncUnit variant code =>
      "Block::" +:+ variant +:+ " => return " +:+ Py.str code +:+ "," +:+
      Py.nl
  | EncCarrier variant tests =>
      "Block::" +:+ variant +:+ "(data) => {" +:+ Py.nl +:+
      cat (render_test <$> tests) +:+ Py.nl +:+ "}"
  end.

Definition cond_holds (fields : gmap string val) (c : string * lit) : bool :=
  bool_decide (fields !! c.1 = Some (denote c.2)).

(** An [if] with no condition at all is not Rust; it is given no
    outcome here. *)
Definition test_holds (fields : gmap string val) (t : state_test) : bool :=
  match t.1 with
  | [] => false
  | conds => forallb (cond_holds fields) conds
  end.

Definition encode_arm_matches (b : block) (a : encode_arm) : bool :=
  match b, a with
  | Unit v, EncUnit v' _ => bool_decide (v = v')
  | Carrier v _, EncCarrier v' _ => bool_decide (v = v')
  | _, _ => false
  end.

(** [match self { ... }]: the first arm whose pattern matches is taken;
    in a carrier arm the first test that holds returns, and when none
    does control reaches the [panic!] after the match. *)
Definition block_state_id (arms : list encode_arm) (b : block) : option Z :=
  match find (encode_arm_matches b) arms, b with
  | Some (EncUnit _ code), _ => Some code
  | Some (EncCarrier _ tests), Carrier _ fields =>
      snd <$> find (test_holds fields) tests
  | _, _ => None
  end.

(** *** [name] *)

Record name_arm := mkNameArm {
  na_variant : string;
  na_payload : bool;
  na_name : string
}.

Definition render_name_arm (a : name_arm) : string :=
  "Block::" +:+ na_variant a +:+
  (if na_payload a then "(_)" else "") +:+
  " => " +:+ Py.dq +:+ na_name a +:+ Py.dq +:+ "," +:+ Py.nl.



(** *** [property_names] *)

(** One [m.insert(key, ... data.field ...)]. *)
Record insertion := mkInsertion {
  ins_key : string;
  ins_field : string
}.

Definition property_arm : Type := string * list insertion.

Definition render_insertion (i : insertion) : string :=
  "m.insert(" +:+ Py.dq +:+ ins_key i +:+ Py.dq +:+
  ", (&format!(" +:+ Py.dq +:+ "{:?}" +:+ Py.dq +:+ ", data." +:+
  ins_field i +:+ ")).to_snake_case().as_str());".

Definition render_property_arm (a : property_arm) : string :=
  "Block::" +:+ a.1 +:+ "(data) => {" +:+ Py.nl +:+
  cat (render_insertion <$> a.2) +:+ "}," +:+ Py.nl.

(** The keys of the map [property_names] returns, with the field value
    that is stringified under each key. Arms exist for carrier variants
    only; every other value takes the wildcard arm and the map stays
    empty. *)
Definition property_names (arms : list property_arm) (b : block)
    : gmap string (option val) :=
  match b with
  | Unit _ => ∅
  | Carrier v fields =>
      match find (λ a : property_arm, bool_decide (a.1 = v)) arms with
      | Some a =>
          foldl (λ m i, <[ins_key i := fields !! ins_field i]> m) ∅ a.2
      | None => ∅
      end
  end.

(** *** The [Block] enum and the data structs *)

Definition enum_variant : Type := string * option string.

Definition render_enum_variant (v : enum_variant) : string :=
  match v.2 with
  | None => v.1 +:+ "," +:+ Py.nl
  | Some payload => v.1 +:+ "(" +:+ payload +:+ ")," +:+ Py.nl
  end.

Record struct_def := mkStruct {
  sd_name : string;
  sd_fields : list (string * string)
}.

Definition render_struct_field (f : string * string) : string :=
  "pub " +:+ f.1 +:+ ": " +:+ f.2 +:+ "," +:+ Py.nl.

Definition render_struct (s : struct_def) : string :=
  DERIVES +:+ "pub struct " +:+ sd_name s +:+ " {" +:+
  cat (render_struct_field <$> sd_fields s) +:+
  "}" +:+ Py.nl +:+ Py.nl.

Record enum_def := mkEnum {
  ed_name : string;
  ed_variants : list string
}.

Definition render_enum (e : enum_def) : string :=
  DERIVES +:+ "pub enum " +:+ ed_name e +:+ " {" +:+
  cat ((λ v, v +:+ "," +:+ Py.nl) <$> ed_variants e) +:+
  "}" +:+ Py.nl +:+ Py.nl.

End Rust.

(** ** The arms the generator writes for a document *)

Definition variant_name (block_identifier : string) : string :=
  snake_to_upper_camel (strip_minecraft_identifier block_identifier).

Definition single_state (obj : BlockObj) : bool := length (states obj) =? 1.

(** The literal written for one property value of a state (lines 214-221). *)
Definition prop_lit (camel prop_name prop_val : string) : Rust.lit :=
  let ty := get_type_from_value prop_val in
  if String.eqb ty "_enum" then
    Rust.LPath (if Py.elem prop_name KNOWN_PROPERTIES
                then snake_to_upper_camel prop_name
                else camel +:+ snake_to_upper_camel prop_name)
               (snake_to_upper_camel prop_val)
  else if String.eqb ty "bool" then Rust.LBool (String.eqb prop_val "true")
  else Rust.LInt prop_val.

Definition prop_field (camel : string) (p : string * string)
    : string * Rust.lit :=
  (process_property_name p.1, prop_lit camel p.1 p.2).

Definition state_fields (camel : string) (state : State)
    : list (string * Rust.lit) :=
  prop_field camel <$> default [] (state_properties state).

(** The value [from_block_state_id] builds for a state of a block. *)
Definition state_expr (entry : string * BlockObj) (state : State)
    : Rust.block_expr :=
  let camel := variant_name entry.1 in
  if single_state entry.2 then Rust.EUnit camel
  else Rust.ECarrier camel (state_fields camel state).

Definition state_value (entry : string * BlockObj) (state : State)
    : Rust.block :=
  Rust.eval_expr (state_expr entry state).

Definition block_decode_arms (entry : string * BlockObj)
    : list Rust.decode_arm :=
  (λ state, (state_id state, state_expr entry state)) <$> states entry.2.

Definition block_encode_arm (entry : string * BlockObj) : Rust.encode_arm :=
  let camel := variant_name entry.1 in
  if single_state entry.2 then
    Rust.EncUnit camel (default 0%Z (state_id <$> head (states entry.2)))
  else
    Rust.EncCarrier camel
      ((λ state, (state_fields camel state, state_id state)) <$>
       states entry.2).

Definition block_name_arm (entry : string * BlockObj) : Rust.name_arm :=
  Rust.mkNameArm (variant_name entry.1) (negb (single_state entry.2)) entry.1.

Definition block_properties (obj : BlockObj) : list (string * list string) :=
  default [] (properties obj).

Definition block_property_arms (entry : string * BlockObj)
    : list Rust.property_arm :=
  if single_state entry.2 then []
  else [(variant_name entry.1,
         (λ p, let prop_name := process_property_name p.1 in
               Rust.mkInsertion prop_name prop_name) <$>
         block_properties entry.2)].

Definition block_enum_variant (entry : string * BlockObj)
    : Rust.enum_variant :=
  let camel := variant_name entry.1 in
  (camel, if single_state entry.2 then None else Some (camel +:+ "Data")).

(** The type written for a field of the data struct (lines 171-179): read
    off the first value, replaced by the shared enum for a known property
    name, and by a block-specific enum otherwise when it is not [bool] or
    [i32]. *)
Definition property_type (camel prop_name : string) (vals : list string)
    : string :=
  let ty := get_type_from_value (default "" (head vals)) in
  let ty := if Py.elem prop_name KNOWN_PROPERTIES
            then snake_to_upper_camel prop_name else ty in
  if String.eqb ty "_enum" then camel +:+ snake_to_upper_camel prop_name
  else ty.

(** Whether lines 177-183 declare a block-specific enum for the property. *)
Definition declares_enum (prop_name : string) (vals : list string) : bool :=
  let ty := get_type_from_value (default "" (head vals)) in
  let ty := if Py.elem prop_name KNOWN_PROPERTIES
            then snake_to_upper_camel prop_name else ty in
  String.eqb ty "_enum".

Definition block_structs (entry : string * BlockObj) : list Rust.struct_def :=
  let camel := variant_name entry.1 in
  if single_state entry.2 then []
  else [Rust.mkStruct (camel +:+ "Data")
          ((λ p, (process_property_name p.1, property_type camel p.1 p.2)) <$>
           block_properties entry.2)].

Definition property_enums (camel : string) (p : string * list string)
    : list Rust.enum_def :=
  if declares_enum p.1 p.2
  then [Rust.mkEnum (camel +:+ snake_to_upper_camel p.1)
          (snake_to_upper_camel <$> p.2)]
  else [].

Definition block_enums (entry : string * BlockObj) : list Rust.enum_def :=
  if single_state entry.2 then []
  else block_properties entry.2 ≫= property_enums (variant_name entry.1).

Definition decode_arms (data : Data) : list Rust.decode_arm :=
  data ≫= block_decode_arms.
Definition encode_arms (data : Data) : list Rust.encode_arm :=
  block_encode_arm <$> data.
Definition name_arms (data : Data) : list Rust.name_arm :=
  block_name_arm <$> data.
Definition property_arms (data : Data) : list Rust.property_arm :=
  data ≫= block_property_arms.
Definition enum_variants (data : Data) : list Rust.enum_variant :=
  block_enum_variant <$> data.
Definition structs (data : Data) : list Rust.struct_def :=
  data ≫= block_structs.
Definition enums (data : Data) : list Rust.enum_def :=
  data ≫= block_enums.

(** The generated functions of a document. *)
Definition Decode (data : Data) : Z → option Rust.block :=
  Rust.from_block_state_id (decode_arms data).
Definition Encode (data : Data) : Rust.block → option Z :=
  Rust.block_state_id (encode_arms data).
Definition PropertyNames (data : Data)
    : Rust.block → gmap string (option Rust.val) :=
  Rust.property_names (property_arms data).

(** The text of all the arms of a document, buffer by buffer. *)
Definition arms_text (data : Data) : gen_state :=
  mkGen (Rust.cat (Rust.render_enum_variant <$> enum_variants data))
        (Rust.cat (Rust.render_encode_arm <$> encode_arms data))
        (Rust.cat (Rust.render_decode_arm <$> decode_arms data))
        (Rust.cat (Rust.render_struct <$> structs data))
        (Rust.cat (Rust.render_enum <$> enums data))
        (Rust.cat (Rust.render_name_arm <$> name_arms data))
        (Rust.cat (Rust.render_property_arm <$> property_arms data)).

(** ** The buffers as a product of texts *)

(** Appending to every buffer at once; the text one loop iteration adds. *)
Definition gapp (g d : gen_state) : gen_state :=
  mkGen (enum_code g +:+ enum_code d)
        (block_state_id_code g +:+ block_state_id_code d)
        (from_block_state_id_code g +:+ from_block_state_id_code d)
        (state_code g +:+ state_code d)
        (end_code g +:+ end_code d)
        (name_code g +:+ name_code d)
        (property_names_code g +:+ property_names_code d).

Definition gempty : gen_state := mkGen "" "" "" "" "" "" "".

Definition gconcat (l : list gen_state) : gen_state := foldr gapp gempty l.

Definition property_delta (camel : string) (p : string * list string)
    : gen_state :=
  let prop_name := process_property_name p.1 in
  mkGen "" "" ""
    (Rust.render_struct_field (prop_name, property_type camel p.1 p.2))
    (Rust.cat (Rust.render_enum <$> property_enums camel p))
    ""
    (Rust.render_insertion (Rust.mkInsertion prop_name prop_name)).

Definition state_test_of (camel : string) (state : State) : Rust.state_test :=
  (state_fields camel state, state_id state).

Definition state_delta (camel : string) (state : State) : gen_state :=
  mkGen "" ""
    (Rust.render_decode_arm
       (state_id state, Rust.ECarrier camel (state_fields camel state)))
    "" "" "" "".

Definition block_delta (entry : string * BlockObj) : gen_state :=
  mkGen (Rust.render_enum_variant (block_enum_variant entry))
        (Rust.render_encode_arm (block_encode_arm entry))
        (Rust.cat (Rust.render_decode_arm <$> block_decode_arms entry))
        (Rust.cat (Rust.render_struct <$> block_structs entry))
        (Rust.cat (Rust.render_enum <$> block_enums entry))
        (Rust.render_name_arm (block_name_arm entry))
        (Rust.cat (Rust.render_property_arm <$> block_property_arms entry)).

(** ** Conditions on a document, and auxiliary definitions *)

Definition is_OK {A} (r : result A) : Prop := ∃ a, r = OK a.

(** What the loops need of a block: with any number of states other than
    one, [obj["properties"]] exists and gives every property at least one
    value, and every state has ["properties"]. *)
Definition block_ok (obj : BlockObj) : bool :=
  single_state obj ||
  match properties obj with
  | None => false
  | Some props =>
      forallb (λ p, bool_decide (p.2 ≠ [])) props &&
      forallb (λ state, bool_decide (is_Some (state_properties state)))
              (states obj)
  end.

Definition to_option {A} (r : result A) : option A :=
  match r with
  | OK a => Some a
  | Raise _ => None
  end.

(** The ids of all states, in document order. *)
Definition all_state_ids (data : Data) : list Z :=
  data ≫= λ entry, state_id <$> states entry.2.

(** The same document with every state id [n] replaced by [f n]. *)
Definition renumber (f : Z → Z) (data : Data) : Data :=
  prod_map id
    (λ obj, mkBlock (properties obj)
              ((λ state, mkState (f (state_id state)) (state_properties state))
               <$> states obj))
  <$> data.

Definition starts_lower (s : string) : bool :=
  match s with
  | "" => false
  | String c _ => Py.is_lower c
  end.

(** The data struct [from_block_state_id] builds for a state. *)
Definition state_record (camel : string) (state : State)
    : gmap string Rust.val :=
  list_to_map (prod_map id Rust.denote <$> state_fields camel state).

(** The states of a block are told apart by their property values: the
    test written for a state holds on the data struct of a state exactly
    when the two have the same id. A block with a single state has no
    tests. *)
Definition told_apart (entry : string * BlockObj) : bool :=
  single_state entry.2 ||
  forallb (λ t,
    forallb (λ s,
      Bool.eqb
        (Rust.test_holds (state_record (variant_name entry.1) t)
           (state_test_of (variant_name entry.1) s))
        (bool_decide (state_id s = state_id t)))
      (states entry.2))
    (states entry.2).

(** The Rust type of a literal, as the generator names types. *)
Definition lit_type (l : Rust.lit) : string :=
  match l with
  | Rust.LBool _ => "bool"
  | Rust.LInt _ => "i32"
  | Rust.LPath ty _ => ty
  end.

(** The enums of lines 116-136: name, variants, and the text that follows
    the last variant. *)
Definition known_enums : list (string * list string * string) :=
  [("Facing", ["North"; "South"; "East"; "West"; "Up"; "Down"],
    ", }" +:+ Py.nl +:+ Py.nl);
   ("Axis", ["X"; "Y"; "Z"], ", }" +:+ Py.nl +:+ Py.nl);
   ("Half", ["Upper"; "Lower"; "Top"; "Bottom"], ", }" +:+ Py.nl +:+ Py.nl);
   ("Face", ["Floor"; "Wall"; "Ceiling"], ", }" +:+ Py.nl +:+ Py.nl);
   ("Shape", ["Straight"; "InnerLeft"; "InnerRight"; "OuterLeft";
              "OuterRight"; "AscendingNorth"; "AscendingEast";
              "AscendingSouth"; "AscendingWest"; "NorthEast"; "NorthWest";
              "SouthEast"; "SouthWest"; "NorthSouth"; "EastWest"],
    "," +:+ Py.nl +:+ Py.nl +:+ "}");
   ("Hinge", ["Left"; "Right"], ", }" +:+ Py.nl +:+ Py.nl);
   ("Part", ["Head"; "Foot"], ", }" +:+ Py.nl +:+ Py.nl)].

Definition render_known_enum (e : string * list string * string) : string :=
  DERIVES +:+ "pub enum " +:+ e.1.1 +:+ " {" +:+
  String.concat ", " e.1.2 +:+ e.2.

(** A number that a [u16] pattern or return value can be. *)
Definition fits_u16 (n : Z) : bool := (0 <=? n)%Z && (n <? 65536)%Z.

(** [ty::variant] names a variant of a declared enum: one of lines
    116-136, or one the generator declares for a block. *)
Definition enum_has_variant (declared : list Rust.enum_def)
    (ty variant : string) : bool :=
  existsb (λ e : string * list string * string,
             String.eqb e.1.1 ty && Py.elem variant e.1.2) known_enums ||
  existsb (λ e, String.eqb (Rust.ed_name e) ty &&
                Py.elem variant (Rust.ed_variants e)) declared.

(** A literal can stand where a field of type [ty] is expected. *)
Definition lit_has_type (declared : list Rust.enum_def) (l : Rust.lit)
    (ty : string) : bool :=
  String.eqb (lit_type l) ty &&
  match l with
  | Rust.LBool _ => true
  | Rust.LInt digits => (Rust.int_value digits <? 2 ^ 31)%N
  | Rust.LPath ty' variant => enum_has_variant declared ty' variant
  end.

(** The fields of the data struct of a block, with their types. *)
Definition struct_fields (entry : string * BlockObj)
    : list (string * string) :=
  (λ p, (process_property_name p.1,
         property_type (variant_name entry.1) p.1 p.2)) <$>
  block_properties entry.2.

(** What the arms written for a block need to be typed: the variant has a
    name, the ids fit [u16], and, with several states, the struct has no
    field twice and every state lists the fields of the struct, in their
    order, each with a literal of the type of the field. *)
Definition block_arms_typed (declared : list Rust.enum_def)
    (entry : string * BlockObj) : bool :=
  negb (String.eqb (variant_name entry.1) "") &&
  forallb (λ state, fits_u16 (state_id state)) (states entry.2) &&
  (single_state entry.2 ||
   bool_decide (NoDup (fst <$> struct_fields entry)) &&
   forallb (λ state,
     bool_decide (fst <$> state_fields (variant_name entry.1) state
                  = fst <$> struct_fields entry) &&
     forallb (λ fd : (string * Rust.lit) * (string * string),
                lit_has_type declared fd.1.2 fd.2.2)
             (zip (state_fields (variant_name entry.1) state)
                  (struct_fields entry)))
     (states entry.2)).

Definition arms_typed (data : Data) : bool :=
  forallb (block_arms_typed (enums data)) data.

(** The values a state gives its fields, in the order of its properties. *)
Definition state_values (camel : string) (state : State) : list Rust.val :=
  Rust.denote ∘ snd <$> state_fields camel state.

(** Lower-case letters, then digits: the rest of a plain word. *)
Fixpoint word_tail (seen_digit : bool) (s : string) : bool :=
  match s with
  | "" => true
  | String c s' =>
      if Py.is_lower c then negb seen_digit && word_tail false s'
      else if Py.is_digit c then word_tail true s'
      else false
  end.

(** A plain word: one or more lower-case letters followed by digits, if
    any. *)
Definition plain_word (w : string) : bool :=
  match w with
  | "" => false
  | String c w' => Py.is_lower c && word_tail false w'
  end.

(** A plain snake_case name: plain words separated by single underscores. *)
Definition plain_snake (s : string) : bool :=
  forallb plain_word (Py.split "_" s).

Fixpoint upper_camel_to_snake_go (s : string) : string :=
  match s with
  | "" => ""
  | String c s' =>
      if Py.is_upper c
      then String "_" (String (Py.to_lower c) (upper_camel_to_snake_go s'))
      else String c (upper_camel_to_snake_go s')
  end.

(** A textual transform back to snake_case: an underscore before every
    upper-case letter but a leading one, and the letter in lower case. *)
Definition upper_camel_to_snake (s : string) : string :=
  Py.slice_from 1 (upper_camel_to_snake_go s).

(** How often a character occurs in a text. *)
Fixpoint count_char (c : ascii) (s : string) : nat :=
  match s with
  | "" => 0
  | String c' s' => (if Ascii.eqb c' c then 1 else 0) + count_char c s'
  end.

(** The variant of a value of [Block]. *)
Definition block_variant (b : Rust.block) : string :=
  match b with
  | Rust.Unit variant | Rust.Carrier variant _ => variant
  end.

(** ** Sample documents *)

(** A block without properties, as the data report lists it. *)
Definition torch_data : Data :=
  [("minecraft:torch", mkBlock None [mkState 1130 None])].



(** A block with a single state that has a property. *)
Definition single_state_with_property : Data :=
  [("minecraft:lamp",
    mkBlock (Some [("lit", ["true"])]) [mkState 7 (Some [("lit", "true")])])].

(** A slab, with the property ["type"] the data report gives it. *)
Definition slab_data : Data :=
  [("minecraft:stone_slab",
    mkBlock
      (Some [("type", ["top"; "bottom"; "double"]);
             ("waterlogged", ["true"; "false"])])
      [mkState 7296 (Some [("type", "top"); ("waterlogged", "true")]);
       mkState 7297 (Some [("type", "top"); ("waterlogged", "false")]);
       mkState 7298 (Some [("type", "bottom"); ("waterlogged", "true")]);
       mkState 7299 (Some [("type", "bottom"); ("waterlogged", "false")]);
       mkState 7300 (Some [("type", "double"); ("waterlogged", "true")]);
       mkState 7301 (Some [("type", "double"); ("waterlogged", "false")])])].

Definition top_waterlogged_slab : Rust.block :=
  Rust.Carrier "StoneSlab"
    (list_to_map [("type_", Rust.VEnum "StoneSlabType" "Top");
                  ("waterlogged", Rust.VBool true)]).

(** Two blocks whose states have the same id. *)
Definition duplicate_code_data : Data :=
  [("minecraft:stone", mkBlock None [mkState 1 None]);
   ("minecraft:granite", mkBlock None [mkState 1 None])].

(** A loader that reads the empty document and nothing else. *)
Definition load_empty_document (text : string) : option Data :=
  if String.eqb text "{}" then Some [] else None.

(** A block whose property has a known name and boolean values. *)
Definition known_name_bool_data : Data :=
  [("minecraft:lamp",
    mkBlock (Some [("half", ["true"; "false"])])
      [mkState 1 (Some [("half", "true")]);
       mkState 2 (Some [("half", "false")])])].

(** The log and the torch of the data report. *)
Definition oak_log_entry : string * BlockObj :=
  ("minecraft:oak_log",
   mkBlock (Some [("axis", ["x"; "y"; "z"])])
     [mkState 10 (Some [("axis", "x")]);
      mkState 11 (Some [("axis", "y")]);
      mkState 12 (Some [("axis", "z")])]).

Definition oak_log_data : Data :=
  [oak_log_entry; ("minecraft:torch", mkBlock None [mkState 1130 None])].


(** A block with two states and no ["properties"]. *)
Definition no_properties_entry : string * BlockObj :=
  ("minecraft:lever", mkBlock None [mkState 1 None; mkState 2 None]).

(** ** Text lemmas *)

Lemma str_app_nil_r (s : string) : s +:+ "" = s.
Proof.
  induction s as [|c s IH]; [done|].
  change (String c (s +:+ "") = String c s). by rewrite IH.
Qed.

Lemma str_app_assoc (s t u : string) : (s +:+ t) +:+ u = s +:+ (t +:+ u).
Proof.
  induction s as [|c s IH]; [done|].
  change (String c ((s +:+ t) +:+ u) = String c (s +:+ t +:+ u)).
  by rewrite IH.
Qed.

Lemma str_app_cons (c : ascii) (s t : string) :
  String c s +:+ t = String c (s +:+ t).
Proof. done. Qed.

Lemma cat_nil : Rust.cat [] = "".
Proof. done. Qed.

Lemma cat_cons (s : string) (l : list string) :
  Rust.cat (s :: l) = s +:+ Rust.cat l.
Proof. done. Qed.

Lemma cat_app (l k : list string) :
  Rust.cat (l ++ k) = Rust.cat l +:+ Rust.cat k.
Proof.
  induction l as [|s l IH]; [done|].
  change (s +:+ Rust.cat (l ++ k) = (s +:+ Rust.cat l) +:+ Rust.cat k).
  by rewrite IH, str_app_assoc.
Qed.


Lemma cat_bind {A} (f : A → list string) (l : list A) :
  Rust.cat (l ≫= f) = Rust.cat (Rust.cat ∘ f <$> l).
Proof.
  induction l as [|a l IH]; [done|].
  rewrite bind_cons, fmap_cons, cat_app, cat_cons, IH. done.
Qed.

Lemma join_empty_cat (l : list string) : Py.join "" l = Rust.cat l.
Proof.
  unfold Py.join. induction l as [|s [|t l] IH]; [done| |].
  - by rewrite cat_cons, str_app_nil_r.
  - change (String.concat "" (s :: t :: l))
      with (s +:+ "" +:+ String.concat "" (t :: l)).
    by rewrite IH.
Qed.

(** Bring a text built by appends into right-nested form. *)
Lemma str_app_nil_l (s : string) : "" +:+ s = s.
Proof. done. Qed.

Ltac str_norm :=
  repeat (rewrite str_app_assoc || rewrite str_app_nil_r
          || rewrite str_app_cons || rewrite str_app_nil_l
          || rewrite cat_cons || rewrite cat_nil).

Ltac unfold_render :=
  unfold Rust.render_struct_field, Rust.render_struct, Rust.render_enum,
    Rust.render_insertion, Rust.render_property_arm, Rust.render_name_arm,
    Rust.render_enum_variant, Rust.render_encode_arm, Rust.render_test,
    Rust.render_decode_arm, Rust.render_field_init.

Lemma gapp_empty_r g : gapp g gempty = g.
Proof. destruct g. unfold gapp. cbn. by rewrite !str_app_nil_r. Qed.

Lemma gapp_assoc g d e : gapp (gapp g d) e = gapp g (gapp d e).
Proof. unfold gapp. cbn. by rewrite !str_app_assoc. Qed.

Lemma gen_state_eq (g d : gen_state) :
  enum_code g = enum_code d →
  block_state_id_code g = block_state_id_code d →
  from_block_state_id_code g = from_block_state_id_code d →
  state_code g = state_code d →
  end_code g = end_code d →
  name_code g = name_code d →
  property_names_code g = property_names_code d →
  g = d.
Proof. destruct g, d. cbn. by intros -> -> -> -> -> -> ->. Qed.

(** Prove [g' = gapp g d] buffer by buffer. *)
Ltac gen_state_eq :=
  apply gen_state_eq; unfold_render; cbn; str_norm; try done.

Lemma for_each_delta {A} (body : A → gen_state → result gen_state)
    (delta : A → gen_state) :
  (∀ a g g', body a g = OK g' → g' = gapp g (delta a)) →
  ∀ l g g', for_each body l g = OK g' → g' = gapp g (gconcat (delta <$> l)).
Proof.
  intros Hbody l. induction l as [|a l IH]; intros g g' Hrun; cbn in Hrun.
  - injection Hrun as <-. by rewrite gapp_empty_r.
  - destruct (body a g) as [g1|] eqn:Ha; [|done].
    cbn in Hrun. apply IH in Hrun as ->. apply Hbody in Ha as ->.
    by rewrite gapp_assoc.
Qed.

Lemma gconcat_enum_code {A} (d : A → gen_state) l :
  enum_code (gconcat (d <$> l)) = Rust.cat (enum_code ∘ d <$> l).
Proof. induction l as [|a l IH]; [done|]. rewrite !fmap_cons, cat_cons, <-IH. done. Qed.
Lemma gconcat_block_state_id_code {A} (d : A → gen_state) l :
  block_state_id_code (gconcat (d <$> l))
  = Rust.cat (block_state_id_code ∘ d <$> l).
Proof. induction l as [|a l IH]; [done|]. rewrite !fmap_cons, cat_cons, <-IH. done. Qed.
Lemma gconcat_from_block_state_id_code {A} (d : A → gen_state) l :
  from_block_state_id_code (gconcat (d <$> l))
  = Rust.cat (from_block_state_id_code ∘ d <$> l).
Proof. induction l as [|a l IH]; [done|]. rewrite !fmap_cons, cat_cons, <-IH. done. Qed.
Lemma gconcat_state_code {A} (d : A → gen_state) l :
  state_code (gconcat (d <$> l)) = Rust.cat (state_code ∘ d <$> l).
Proof. induction l as [|a l IH]; [done|]. rewrite !fmap_cons, cat_cons, <-IH. done. Qed.
Lemma gconcat_end_code {A} (d : A → gen_state) l :
  end_code (gconcat (d <$> l)) = Rust.cat (end_code ∘ d <$> l).
Proof. induction l as [|a l IH]; [done|]. rewrite !fmap_cons, cat_cons, <-IH. done. Qed.
Lemma gconcat_name_code {A} (d : A → gen_state) l :
  name_code (gconcat (d <$> l)) = Rust.cat (name_code ∘ d <$> l).
Proof. induction l as [|a l IH]; [done|]. rewrite !fmap_cons, cat_cons, <-IH. done. Qed.
Lemma gconcat_property_names_code {A} (d : A → gen_state) l :
  property_names_code (gconcat (d <$> l))
  = Rust.cat (property_names_code ∘ d <$> l).
Proof. induction l as [|a l IH]; [done|]. rewrite !fmap_cons, cat_cons, <-IH. done. Qed.

(** ** What each loop iteration appends *)

Lemma add_end_code_nil g : add_end_code "" g = g.
Proof. gen_state_eq. Qed.

Lemma foldl_add_end_code (f : string → string) vals g :
  foldl (λ g val, add_end_code (f val) g) g vals
  = add_end_code (Rust.cat (f <$> vals)) g.
Proof.
  revert g. induction vals as [|v vals IH]; intros g.
  - by rewrite add_end_code_nil.
  - cbn [foldl]. rewrite IH. gen_state_eq.
Qed.

Lemma gen_property_delta camel p g g' :
  gen_property camel p g = OK g' → g' = gapp g (property_delta camel p).
Proof.
  destruct p as [prop_name [|v0 vals]]; [done|].
  unfold gen_property, property_delta, property_enums, property_type,
    declares_enum.
  cbn [head_item mbind result_bind fst snd head default].
  destruct (String.eqb _ "_enum").
  - rewrite foldl_add_end_code. intros [= <-]. gen_state_eq.
    by rewrite <-list_fmap_compose.
  - intros [= <-]. gen_state_eq.
Qed.

Lemma get_type_from_value_cases val :
  (get_type_from_value val = "bool" ∧ (val = "true" ∨ val = "false")) ∨
  (get_type_from_value val = "i32" ∧ val ≠ "true" ∧ val ≠ "false" ∧
   Py.isdigit val = true) ∨
  (get_type_from_value val = "_enum" ∧ val ≠ "true" ∧ val ≠ "false" ∧
   Py.isdigit val = false).
Proof.
  unfold get_type_from_value.
  destruct (String.eqb_spec val "true") as [->|?]; [by left; eauto|].
  destruct (String.eqb_spec val "false") as [->|?]; [by left; eauto|].
  cbn [orb]. destruct (Py.isdigit val); [right; left|right; right]; done.
Qed.

Lemma render_prop_lit camel prop_name prop_val :
  Rust.render_lit (prop_lit camel prop_name prop_val)
  = rust_prop_val camel prop_name prop_val.
Proof.
  unfold prop_lit, rust_prop_val.
  destruct (get_type_from_value_cases prop_val)
    as [[-> [-> | ->]]|[[-> _]|[-> _]]]; done.
Qed.

Lemma foldl_gen_state_property camel props count state_if_code g :
  foldl (gen_state_property camel) (count, state_if_code, g) props
  = (count + length props,
     state_if_code +:+
       Rust.render_conds (count =? 0) (prop_field camel <$> props),
     add_from_block_state_id_code
       (Rust.cat (Rust.render_field_init ∘ prop_field camel <$> props)) g).
Proof.
  revert count state_if_code g.
  induction props as [|[prop_name prop_val] props IH];
    intros count state_if_code g.
  - cbn. rewrite Nat.add_0_r, str_app_nil_r. do 2 f_equal. gen_state_eq.
  - cbn [foldl gen_state_property]. rewrite IH.
    replace (count + 1 =? 0) with false
      by (symmetry; apply Nat.eqb_neq; lia).
    f_equal; [f_equal; [cbn; lia|]|].
    + cbn [fmap list_fmap Rust.render_conds prop_field fst snd].
      rewrite render_prop_lit.
      destruct (count =? 0); cbn [negb]; by str_norm.
    + gen_state_eq. cbn. str_norm. by rewrite render_prop_lit.
Qed.

Lemma gen_state_arm_delta camel state state_if_code g state_if_code' g' :
  gen_state_arm camel state (state_if_code, g) = OK (state_if_code', g') →
  state_if_code'
    = state_if_code +:+ Rust.render_test (state_test_of camel state) ∧
  g' = gapp g (state_delta camel state).
Proof.
  unfold gen_state_arm, state_delta, state_test_of, state_fields.
  destruct (state_properties state) as [props|]; [|done].
  cbn [getitem mbind result_bind default].
  rewrite foldl_gen_state_property. intros [= <- <-]. split.
  - unfold_render. cbn. by str_norm.
  - gen_state_eq. by rewrite list_fmap_compose.
Qed.

Lemma for_each_gen_state_arm camel states state_if_code g state_if_code' g' :
  for_each (gen_state_arm camel) states (state_if_code, g)
    = OK (state_if_code', g') →
  state_if_code'
    = state_if_code +:+
      Rust.cat (Rust.render_test ∘ state_test_of camel <$> states) ∧
  g' = gapp g (gconcat (state_delta camel <$> states)).
Proof.
  revert state_if_code g.
  induction states as [|state states IH]; intros state_if_code g Hrun.
  - injection Hrun as <- <-.
    by rewrite gapp_empty_r, fmap_nil, str_app_nil_r.
  - cbn [for_each] in Hrun.
    destruct (gen_state_arm camel state (state_if_code, g))
      as [[s1 g1]|] eqn:Harm; [|done].
    apply gen_state_arm_delta in Harm as [-> ->].
    apply IH in Hrun as [-> ->]. split.
    + by rewrite fmap_cons, cat_cons, str_app_assoc.
    + by rewrite fmap_cons, gapp_assoc.
Qed.

Lemma cat_fmap_empty {A} (f : A → string) (l : list A) :
  (∀ a, f a = "") → Rust.cat (f <$> l) = "".
Proof.
  intros Hf. induction l as [|a l IH]; [done|].
  by rewrite fmap_cons, cat_cons, Hf, IH.
Qed.

Lemma cat_fmap_bind {A B} (f : A → list B) (g : B → string) (l : list A) :
  Rust.cat (g <$> (l ≫= f)) = Rust.cat ((λ a, Rust.cat (g <$> f a)) <$> l).
Proof.
  induction l as [|a l IH]; [done|].
  by rewrite bind_cons, fmap_app, cat_app, fmap_cons, cat_cons, IH.
Qed.

Lemma length_one {A} (l : list A) : (length l =? 1) = true → ∃ a, l = [a].
Proof.
  destruct l as [|a [|b l]]; cbn; try done. by exists a.
Qed.

Lemma gen_block_delta entry g g' :
  gen_block entry g = OK g' → g' = gapp g (block_delta entry).
Proof.
  destruct entry as [block_identifier obj].
  unfold gen_block, block_delta, block_enum_variant, block_encode_arm,
    block_decode_arms, block_structs, block_enums, block_name_arm,
    block_property_arms, state_expr, single_state, variant_name,
    block_properties.
  cbn [fst snd].
  destruct (length (states obj) =? 1) eqn:Hsingle; cbn [negb].
  - apply length_one in Hsingle as [state0 ->].
    cbn [head_item mbind result_bind]. intros [= <-]. gen_state_eq.
  - destruct (properties obj) as [props|]; [|done].
    cbn [getitem mbind result_bind default].
    destruct (for_each (gen_property _) props _) as [g1|] eqn:Hprops; [|done].
    apply (for_each_delta _ _ (gen_property_delta _)) in Hprops as ->.
    cbn [mbind result_bind].
    destruct (for_each (gen_state_arm _) (states obj) _)
      as [[state_if_code g2]|] eqn:Hstates; [|done].
    apply for_each_gen_state_arm in Hstates as [-> ->].
    cbn [mbind result_bind]. intros [= <-].
    apply gen_state_eq; cbn [enum_code block_state_id_code
      from_block_state_id_code state_code end_code name_code
      property_names_code gapp add_enum_code add_block_state_id_code
      add_from_block_state_id_code add_state_code add_end_code add_name_code
      add_property_names_code];
      rewrite ?gconcat_enum_code, ?gconcat_block_state_id_code,
        ?gconcat_from_block_state_id_code, ?gconcat_state_code,
        ?gconcat_end_code, ?gconcat_name_code, ?gconcat_property_names_code.
    all: repeat match goal with
      | |- context [Rust.cat (?f <$> ?l)] =>
          rewrite (cat_fmap_empty f l) by done
      end.
    5: by rewrite cat_fmap_bind, str_app_nil_r.
    all: unfold_render; cbn [fst snd default from_option id Rust.sd_name
      Rust.sd_fields Rust.na_variant Rust.na_payload Rust.na_name
      fmap list_fmap]; str_norm; try done.
    + by rewrite <-list_fmap_compose.
    + by rewrite <-list_fmap_compose.
    + by rewrite <-!list_fmap_compose.
    + by rewrite <-list_fmap_compose.
Qed.

Lemma gconcat_block_delta data : gconcat (block_delta <$> data) = arms_text data.
Proof.
  unfold arms_text, enum_variants, encode_arms, decode_arms, structs, enums,
    name_arms, property_arms.
  apply gen_state_eq; cbn [enum_code block_state_id_code
    from_block_state_id_code state_code end_code name_code
    property_names_code];
    rewrite ?gconcat_enum_code, ?gconcat_block_state_id_code,
      ?gconcat_from_block_state_id_code, ?gconcat_state_code,
      ?gconcat_end_code, ?gconcat_name_code, ?gconcat_property_names_code,
      ?cat_fmap_bind, <-?list_fmap_compose; done.
Qed.

(** The buffers the generator ends with are the fixed headers, the text of
    the arms of the document, and the fixed footers. *)
Lemma generate_arms_text data g :
  generate data = OK g → g = finish (gapp initial_state (arms_text data)).
Proof.
  unfold generate.
  destruct (for_each gen_block data initial_state) as [g1|] eqn:Hrun; [|done].
  apply (for_each_delta _ _ gen_block_delta) in Hrun as ->.
  cbn [mbind result_bind mret result_ret]. intros [= <-].
  by rewrite gconcat_block_delta.
Qed.

(** ** When generation succeeds *)

Lemma for_each_ok {A S} (body : A → S → result S) (P : A → bool) :
  (∀ a s, is_OK (body a s) ↔ P a = true) →
  ∀ l s, is_OK (for_each body l s) ↔ forallb P l = true.
Proof.
  intros Hbody l. induction l as [|a l IH]; intros s; cbn [for_each forallb].
  - split; [done|]. by exists s.
  - rewrite andb_true_iff, <-(Hbody a s).
    destruct (body a s) as [s'|e]; cbn [mbind result_bind].
    + rewrite IH. split; [|tauto]. intros ?; split; [by eexists|done].
    + split; [by intros [? ?]|]. by intros [[? ?] _].
Qed.

Lemma gen_property_ok camel p g :
  is_OK (gen_property camel p g) ↔ bool_decide (p.2 ≠ []) = true.
Proof.
  destruct p as [prop_name [|v0 vals]]; cbn [snd].
  - split; [by intros [? ?]|done].
  - unfold gen_property. cbn [head_item mbind result_bind].
    split; [done|]. intros _. destruct (String.eqb _ _); by eexists.
Qed.

Lemma gen_state_arm_ok camel state acc :
  is_OK (gen_state_arm camel state acc)
  ↔ bool_decide (is_Some (state_properties state)) = true.
Proof.
  destruct acc as [state_if_code g]. unfold gen_state_arm.
  destruct (state_properties state) as [props|]; cbn [getitem mbind result_bind].
  - split; [intros _; apply bool_decide_eq_true; by eexists|].
    intros _. destruct (foldl _ _ _) as [[? ?] ?]. by eexists.
  - split; [by intros [? ?]|]. intros [? ?]%bool_decide_eq_true. done.
Qed.

Lemma gen_block_ok entry g :
  is_OK (gen_block entry g) ↔ block_ok entry.2 = true.
Proof.
  destruct entry as [block_identifier obj].
  unfold gen_block, block_ok, single_state. cbn [snd].
  destruct (length (states obj) =? 1) eqn:Hsingle; cbn [orb negb].
  - apply length_one in Hsingle as [state0 ->]. split; [done|].
    intros _. by eexists.
  - destruct (properties obj) as [props|]; cbn [getitem mbind result_bind];
      [|split; [by intros [? ?]|done]].
    rewrite andb_true_iff.
    match goal with
    | |- context [for_each (gen_property ?c) props ?g0] =>
        pose proof (for_each_ok (gen_property c)
          (λ p, bool_decide (p.2 ≠ [])) (gen_property_ok c) props g0) as <-
    end.
    destruct (for_each (gen_property _) props _) as [g1|e];
      cbn [mbind result_bind]; [|split; [by intros [? ?]|by intros [[? ?] _]]].
    match goal with
    | |- context [for_each (gen_state_arm ?c) (states obj) ?acc] =>
        pose proof (for_each_ok (gen_state_arm c)
          (λ state, bool_decide (is_Some (state_properties state)))
          (gen_state_arm_ok c) (states obj) acc) as <-
    end.
    destruct (for_each (gen_state_arm _) (states obj) _) as [[? g2]|e];
      cbn [mbind result_bind].
    + split; intros _; [split|]; by eexists.
    + split; [by intros [? ?]|by intros [_ [? ?]]].
Qed.

Lemma generate_ok data :
  is_OK (generate data) ↔ forallb (block_ok ∘ snd) data = true.
Proof.
  unfold generate.
  rewrite <-(for_each_ok gen_block (block_ok ∘ snd) gen_block_ok data
               initial_state).
  destruct (for_each gen_block data initial_state) as [g|e];
    cbn [mbind result_bind].
  - split; intros _; by eexists.
  - split; by intros [? ?].
Qed.

(** ** Lookups in lists of arms *)



(** ** Block names *)

Lemma slice_from_app (pre rest : string) :
  Py.slice_from (String.length pre) (pre +:+ rest) = rest.
Proof. induction pre as [|c pre IH]; [by destruct rest|done]. Qed.

Lemma slice_from_short (n : nat) (s : string) :
  String.length s ≤ n → Py.slice_from n s = "".
Proof.
  revert s. induction n as [|n IH]; intros [|c s]; cbn; try done; [lia|].
  intros ?. apply IH. lia.
Qed.

(** An identifier of at most ten characters leaves the empty block name. *)
Lemma strip_minecraft_identifier_short (s : string) :
  String.length s ≤ 10 → strip_minecraft_identifier s = "".
Proof. apply slice_from_short. Qed.

(** C10: the block name is the identifier without its first ten characters,
    whatever these are: an identifier [pre ++ rest] with any ten-character
    [pre] gets the block name [rest] and the variant name of [rest], is
    accepted exactly when ["minecraft:" ++ rest] is, and yields the same
    text in every buffer but [name_code], which quotes the identifier as
    it stands. *)
Theorem block_name_drops_ten_characters
    (pre rest : string) (obj : BlockObj) (g g' : gen_state) :
  String.length pre = 10 →
  gen_block (pre +:+ rest, obj) g = OK g' →
  strip_minecraft_identifier (pre +:+ rest) = rest ∧
  variant_name (pre +:+ rest) = snake_to_upper_camel rest ∧
  ∃ g0, gen_block ("minecraft:" +:+ rest, obj) g = OK g0 ∧
    enum_code g' = enum_code g0 ∧
    block_state_id_code g' = block_state_id_code g0 ∧
    from_block_state_id_code g' = from_block_state_id_code g0 ∧
    state_code g' = state_code g0 ∧
    end_code g' = end_code g0 ∧
    property_names_code g' = property_names_code g0 ∧
    name_code g' = name_code g +:+ Rust.render_name_arm
      (Rust.mkNameArm (snake_to_upper_camel rest) (negb (single_state obj))
         (pre +:+ rest)).
Proof.
  intros Hlen Hrun.
  assert (strip_minecraft_identifier (pre +:+ rest) = rest) as Hstrip.
  { unfold strip_minecraft_identifier. rewrite <-Hlen. apply slice_from_app. }
  assert (variant_name (pre +:+ rest) = snake_to_upper_camel rest) as Hvar.
  { unfold variant_name. by rewrite Hstrip. }
  split; [done|]. split; [done|].
  destruct (proj2 (gen_block_ok ("minecraft:" +:+ rest, obj) g)) as [g0 Hrun0].
  { apply (gen_block_ok (pre +:+ rest, obj) g). by eexists. }
  exists g0. split; [done|].
  apply gen_block_delta in Hrun as ->. apply gen_block_delta in Hrun0 as ->.
  unfold block_delta, block_enum_variant, block_encode_arm, block_decode_arms,
    block_structs, block_enums, block_property_arms, block_name_arm,
    state_expr.
  cbn [fst snd enum_code block_state_id_code from_block_state_id_code
    state_code end_code property_names_code name_code gapp].
  rewrite Hvar.
  change (variant_name ("minecraft:" +:+ rest)) with (snake_to_upper_camel rest).
  done.
Qed.

Lemma block_name_drops_ten_characters_witness :
  strip_minecraft_identifier "quark_mod:oak_log" = "oak_log" ∧
  variant_name "quark_mod:oak_log" = "OakLog".
Proof.
  destruct (block_name_drops_ten_characters "quark_mod:" "oak_log"
              (mkBlock None [mkState 1130 None]) initial_state
              (gapp initial_state
                 (block_delta ("quark_mod:oak_log",
                               mkBlock None [mkState 1130 None]))))
    as (Hstrip & Hvar & _).
  - reflexivity.
  - vm_compute. reflexivity.
  - split; [exact Hstrip|exact Hvar].
Defined.

(** ** The shape of a variant *)

(** C4, as stated, fails: a block with exactly one state and one property
    name is written as a unit variant. *)
Lemma single_state_with_property_is_unit :
  (states <$> (snd <$> single_state_with_property))
    = [[mkState 7 (Some [("lit", "true")])]] ∧
  (properties <$> (snd <$> single_state_with_property))
    = [Some [("lit", ["true"])]] ∧
  enum_variants single_state_with_property = [("Lamp", None)] ∧
  (enum_code <$> (match generate single_state_with_property with
                  | OK g => Some g
                  | Raise _ => None
                  end))
    = Some (enum_code_header +:+ "Lamp," +:+ Py.nl +:+ "}").
Proof. vm_compute. done. Qed.

(** C4, amended: a block is written as a unit variant exactly when it has
    one state, whatever its properties; with any other number of states it
    is written as a variant carrying its data struct. *)
Theorem unit_variant_iff_single_state
    (entry : string * BlockObj) (g g' : gen_state) :
  gen_block entry g = OK g' →
  enum_code g'
    = enum_code g +:+ Rust.render_enum_variant (block_enum_variant entry) ∧
  (length (states entry.2) = 1 →
   block_enum_variant entry = (variant_name entry.1, None)) ∧
  (length (states entry.2) ≠ 1 →
   block_enum_variant entry
     = (variant_name entry.1, Some (variant_name entry.1 +:+ "Data"))).
Proof.
  intros Hrun. apply gen_block_delta in Hrun as ->. split; [done|].
  unfold block_enum_variant, single_state.
  split; intros Hlen.
  - by rewrite Hlen.
  - apply Nat.eqb_neq in Hlen. by rewrite Hlen.
Qed.

Lemma unit_variant_iff_single_state_witness :
  block_enum_variant
    ("minecraft:lamp",
     mkBlock (Some [("lit", ["true"])]) [mkState 7 (Some [("lit", "true")])])
  = ("Lamp", None).
Proof.
  refine (proj1 (proj2 (unit_variant_iff_single_state
    ("minecraft:lamp",
     mkBlock (Some [("lit", ["true"])]) [mkState 7 (Some [("lit", "true")])])
    initial_state
    (gapp initial_state (block_delta ("minecraft:lamp",
       mkBlock (Some [("lit", ["true"])])
               [mkState 7 (Some [("lit", "true")])]))) _)) _).
  - vm_compute. reflexivity.
  - reflexivity.
Defined.

(** ** [name] *)





(** ** [property_names] *)

Lemma process_property_name_keyword (s : string) :
  process_property_name s = s ↔ Py.elem s KEYWORDS = false.
Proof.
  unfold process_property_name. destruct (Py.elem s KEYWORDS); [|done].
  split; [|done]. intros Heq. exfalso.
  assert (String.length (s +:+ "_") = String.length s) as Hlen by by rewrite Heq.
  clear Heq. induction s as [|c s IH]; [done|]. cbn in Hlen. auto.
Qed.

(** The key of every insertion is the field name, that is the property
    name after [process_property_name]. *)
Lemma property_arm_keys (entry : string * BlockObj) :
  single_state entry.2 = false →
  block_property_arms entry
  = [(variant_name entry.1,
      (λ p, Rust.mkInsertion (process_property_name p.1)
                             (process_property_name p.1)) <$>
      block_properties entry.2)].
Proof. unfold block_property_arms. by intros ->. Qed.

(** C7 at the slab: the map [property_names] returns has the key ["type_"]
    and no key ["type"]; the generated text inserts under ["type_"]. *)
Theorem slab_property_key_is_escaped :
  property_arms slab_data
    = [("StoneSlab", [Rust.mkInsertion "type_" "type_";
                      Rust.mkInsertion "waterlogged" "waterlogged"])] ∧
  Decode slab_data 7296 = Some top_waterlogged_slab ∧
  PropertyNames slab_data top_waterlogged_slab !! "type" = None ∧
  PropertyNames slab_data top_waterlogged_slab !! "type_"
    = Some (Some (Rust.VEnum "StoneSlabType" "Top")) ∧
  (property_names_code <$> to_option (generate slab_data))
    = Some (property_names_code_header +:+
            "Block::StoneSlab(data) => {" +:+ Py.nl +:+
            "m.insert(" +:+ Py.dq +:+ "type_" +:+ Py.dq +:+ ", (&format!(" +:+
            Py.dq +:+ "{:?}" +:+ Py.dq +:+
            ", data.type_)).to_snake_case().as_str());" +:+
            "m.insert(" +:+ Py.dq +:+ "waterlogged" +:+ Py.dq +:+
            ", (&format!(" +:+ Py.dq +:+ "{:?}" +:+ Py.dq +:+
            ", data.waterlogged)).to_snake_case().as_str());" +:+
            "}," +:+ Py.nl +:+ property_names_code_footer).
Proof. vm_compute. done. Qed.

(** ** [from_block_state_id] and repeated ids *)

(** C5, as stated, fails: with the same id in two blocks the generator
    finishes, writes one arm for each, and the first arm shadows the
    second. *)
Lemma duplicate_code_is_not_detected :
  all_state_ids duplicate_code_data = [1; 1]%Z ∧
  (from_block_state_id_code <$> to_option (generate duplicate_code_data))
    = Some (from_block_state_id_code_header +:+
            "1 => return Block::Stone," +:+ Py.nl +:+
            "1 => return Block::Granite," +:+ Py.nl +:+
            from_block_state_id_code_footer) ∧
  Decode duplicate_code_data 1 = Some (Rust.Unit "Stone").
Proof. vm_compute. done. Qed.

Lemma block_ok_renumber (f : Z → Z) (obj : BlockObj) :
  block_ok (mkBlock (properties obj)
              ((λ state, mkState (f (state_id state)) (state_properties state))
               <$> states obj))
  = block_ok obj.
Proof.
  unfold block_ok, single_state. cbn [states properties].
  rewrite length_fmap. f_equal. destruct (properties obj); [|done]. f_equal.
  induction (states obj) as [|state sts IH]; [done|].
  cbn [fmap list_fmap forallb state_properties]. by rewrite <-IH.
Qed.

(** C5, amended: the generator never compares ids. Whether it finishes is
    the same under any renumbering of the states, also one that makes all
    ids equal; [from_block_state_id] gets one arm per state, in document
    order, repeated ids included. *)
Theorem decode_arms_ignore_repeated_ids (f : Z → Z) (data : Data) :
  (is_OK (generate (renumber f data)) ↔ is_OK (generate data)) ∧
  fst <$> decode_arms data = all_state_ids data ∧
  (∀ g, generate data = OK g →
     from_block_state_id_code g
     = from_block_state_id_code_header +:+
       Rust.cat (Rust.render_decode_arm <$> decode_arms data) +:+
       from_block_state_id_code_footer).
Proof.
  split; [|split].
  - rewrite !generate_ok. unfold renumber.
    induction data as [|[block_identifier obj] data IH]; [done|].
    cbn [fmap list_fmap forallb prod_map fst snd compose].
    rewrite !andb_true_iff, block_ok_renumber.
    cbn [compose snd] in IH. by rewrite IH.
  - unfold decode_arms, all_state_ids, block_decode_arms.
    induction data as [|entry data IH]; [done|].
    rewrite !bind_cons, fmap_app, IH. f_equal.
    by rewrite <-list_fmap_compose.
  - intros g ->%generate_arms_text. cbn. by str_norm.
Qed.

(** ** The script on a file system *)

(** C6, as stated, fails: the input holds a cut-off document, the script
    exits with status 1, and the output file, which had content, is
    empty afterwards. *)
Lemma load_failure_empties_output :
  exit_status (run load_empty_document ["blocks.py"; "blocks.json"; "lib.rs"]
                 {["blocks.json" := "{"; "lib.rs" := "pub enum Block {}"]}).1
    = 1%Z ∧
  ({["blocks.json" := "{"; "lib.rs" := "pub enum Block {}"]} : gmap string string)
    !! "lib.rs" = Some "pub enum Block {}" ∧
  (run load_empty_document ["blocks.py"; "blocks.json"; "lib.rs"]
     {["blocks.json" := "{"; "lib.rs" := "pub enum Block {}"]}).2
    !! "lib.rs" = Some "".
Proof. vm_compute. done. Qed.

(** When the input file cannot be opened, no file is touched. *)
Lemma missing_input_leaves_files json_load argv in_path files :
  argv !! 1 = Some in_path → files !! in_path = None →
  is_Some (argv !! 2) →
  run json_load argv files = (Raise (IOError in_path), files).
Proof. unfold run. by intros -> -> [? ->]. Qed.

(** C6, amended: when the input file exists but [json.load] rejects its
    text, the script exits with status 1 and writes none of the generated
    text, but it has opened the output file for writing before loading:
    the file is left empty (created if it was missing), every other file
    is unchanged. *)
Theorem load_failure_leaves_output_empty
    (json_load : string → option Data) (argv : list string)
    (in_path out_path text : string) (files : gmap string string) :
  argv !! 1 = Some in_path →
  argv !! 2 = Some out_path →
  files !! in_path = Some text →
  in_path ≠ out_path →
  json_load text = None →
  run json_load argv files = (Raise ValueError, <[out_path := ""]> files) ∧
  exit_status (run json_load argv files).1 = 1%Z ∧
  (run json_load argv files).2 !! out_path = Some "" ∧
  (∀ path, path ≠ out_path →
     (run json_load argv files).2 !! path = files !! path).
Proof.
  intros Hin Hout Hfile Hne Hload.
  assert (run json_load argv files
          = (Raise ValueError, <[out_path := ""]> files)) as ->.
  { unfold run. rewrite Hin, Hout, Hfile.
    rewrite lookup_insert_ne by done. rewrite Hfile. cbn. by rewrite Hload. }
  split; [done|]. split; [done|]. cbn [snd]. split.
  - apply lookup_insert_eq.
  - intros path ?. by apply lookup_insert_ne.
Qed.

Lemma load_failure_leaves_output_empty_witness :
  run load_empty_document ["blocks.py"; "blocks.json"; "lib.rs"]
    {["blocks.json" := "{"; "lib.rs" := "pub enum Block {}"]}
  = (Raise ValueError,
     <["lib.rs" := ""]> {["blocks.json" := "{"; "lib.rs" := "pub enum Block {}"]}).
Proof.
  refine (proj1 (load_failure_leaves_output_empty load_empty_document
    ["blocks.py"; "blocks.json"; "lib.rs"] "blocks.json" "lib.rs" "{"
    {["blocks.json" := "{"; "lib.rs" := "pub enum Block {}"]} _ _ _ _ _)).
  - reflexivity.
  - reflexivity.
  - vm_compute. reflexivity.
  - discriminate.
  - reflexivity.
Defined.

(** ** The type of a field *)

Lemma is_lower_to_upper (c : ascii) :
  Py.is_lower c = true → Py.is_lower (Py.to_upper c) = false.
Proof. destruct c as [[] [] [] [] [] [] [] []]; by vm_compute. Qed.

Lemma starts_lower_app (s t : string) :
  starts_lower (s +:+ t)
  = match s with "" => starts_lower t | _ => starts_lower s end.
Proof. by destruct s. Qed.

Lemma starts_lower_title (s : string) : starts_lower (Py.title s) = false.
Proof.
  destruct s as [|c s]; [done|]. unfold Py.title. cbn [Py.title_go].
  destruct (Py.is_lower c) eqn:Hl; cbn [starts_lower].
  - by apply is_lower_to_upper.
  - by destruct (Py.is_upper c).
Qed.

Lemma starts_lower_camel (s : string) :
  starts_lower (snake_to_upper_camel s) = false.
Proof.
  unfold snake_to_upper_camel. rewrite join_empty_cat.
  induction (Py.split "_" s) as [|w ws IH]; [done|].
  rewrite fmap_cons, cat_cons, starts_lower_app.
  destruct (Py.title w) eqn:Hw; [done|]. rewrite <-Hw.
  apply starts_lower_title.
Qed.

Lemma isdigit_not_bool (val : string) :
  Py.isdigit val = true → val ≠ "true" ∧ val ≠ "false".
Proof. split; by intros ->. Qed.

Lemma get_type_from_value_bool val :
  get_type_from_value val = "bool" ↔ val = "true" ∨ val = "false".
Proof.
  destruct (get_type_from_value_cases val)
    as [[-> ?]|[(-> & ? & ? & _)|(-> & ? & ? & _)]];
    (split; [done|]); by intros [? | ?].
Qed.

Lemma get_type_from_value_i32 val :
  get_type_from_value val = "i32" ↔ Py.isdigit val = true.
Proof.
  destruct (get_type_from_value_cases val)
    as [[-> [-> | ->]]|[(-> & _ & _ & ->)|(-> & _ & _ & ->)]]; done.
Qed.

(** C2, as stated, fails: a domain that starts with a boolean is typed
    [bool] though another value is not one, a domain that starts with
    digits is typed [i32] though another value is symbolic, and a domain of
    integer literals that starts with a negative one is not typed [i32]. *)
Lemma type_read_off_first_value :
  property_type "Lamp" "mode" ["true"; "dimmed"] = "bool" ∧
  property_type "Lamp" "level" ["0"; "high"] = "i32" ∧
  property_type "Lamp" "level" ["-1"; "0"; "1"] = "LampLevel" ∧
  structs [("minecraft:lamp",
            mkBlock (Some [("mode", ["true"; "dimmed"]);
                           ("level", ["-1"; "0"; "1"])])
              [mkState 1 (Some [("mode", "true"); ("level", "-1")]);
               mkState 2 (Some [("mode", "dimmed"); ("level", "0")])])]
  = [Rust.mkStruct "LampData" [("mode", "bool"); ("level", "LampLevel")]].
Proof. vm_compute. done. Qed.

(** C2, amended: for a property whose name is not a known one, the field
    type is decided by the first value of the domain alone: it is [bool]
    exactly when that value is ["true"] or ["false"], and [i32] exactly when
    that value is a non-empty run of decimal digits (a sign is not a
    digit); this is the type written into the data struct. *)
Theorem field_type_from_first_value
    (block_identifier prop_name v0 : string) (vals : list string) :
  Py.elem prop_name KNOWN_PROPERTIES = false →
  (property_type (variant_name block_identifier) prop_name (v0 :: vals)
     = "bool" ↔ v0 = "true" ∨ v0 = "false") ∧
  (property_type (variant_name block_identifier) prop_name (v0 :: vals)
     = "i32" ↔ Py.isdigit v0 = true) ∧
  property_type (variant_name block_identifier) prop_name (v0 :: vals)
    = property_type (variant_name block_identifier) prop_name [v0] ∧
  (∀ g g',
     gen_property (variant_name block_identifier) (prop_name, v0 :: vals) g
       = OK g' →
     state_code g'
     = state_code g +:+ "pub " +:+ process_property_name prop_name +:+ ": " +:+
       property_type (variant_name block_identifier) prop_name (v0 :: vals)
       +:+ "," +:+ Py.nl).
Proof.
  intros Hknown.
  assert (∀ ty : string,
            starts_lower ty = true →
            variant_name block_identifier +:+ snake_to_upper_camel prop_name
            ≠ ty) as Hfresh.
  { intros ty Hty <-. rewrite starts_lower_app in Hty.
    unfold variant_name in Hty.
    destruct (snake_to_upper_camel (strip_minecraft_identifier _)) eqn:Hc;
      [by rewrite starts_lower_camel in Hty|].
    rewrite <-Hc in Hty. by rewrite starts_lower_camel in Hty. }
  unfold property_type. cbn [head default]. change (id v0) with v0.
  rewrite Hknown.
  split; [|split; [|split; [done|]]].
  - rewrite <-get_type_from_value_bool.
    destruct (get_type_from_value_cases v0)
      as [[-> _]|[(-> & _)|(-> & _)]];
      [by change (String.eqb "bool" "_enum") with false
      |by change (String.eqb "i32" "_enum") with false|].
    change (String.eqb "_enum" "_enum") with true.
    split; [|done]. intros ?. by destruct (Hfresh "bool").
  - rewrite <-get_type_from_value_i32.
    destruct (get_type_from_value_cases v0)
      as [[-> _]|[(-> & _)|(-> & _)]];
      [by change (String.eqb "bool" "_enum") with false
      |by change (String.eqb "i32" "_enum") with false|].
    change (String.eqb "_enum" "_enum") with true.
    split; [|done]. intros ?. by destruct (Hfresh "i32").
  - intros g g' ->%gen_property_delta.
    unfold property_delta, property_type.
    cbn [state_code gapp fst snd head default]. by rewrite Hknown.
Qed.

Lemma field_type_from_first_value_witness :
  property_type "Lamp" "mode" ["true"; "dimmed"]
  = property_type "Lamp" "mode" ["true"].
Proof.
  refine (proj1 (proj2 (proj2 (field_type_from_first_value
    "minecraft:lamp" "mode" "true" ["dimmed"] _)))).
  reflexivity.
Defined.

(** C3 at a known property name with boolean values: the field of the data
    struct is declared with the shared enum [Half], while the arms of
    [from_block_state_id] and the tests of [block_state_id] give it the
    literals [true] and [false]. *)
Theorem known_name_overrides_bool :
  structs known_name_bool_data
    = [Rust.mkStruct "LampData" [("half", "Half")]] ∧
  decode_arms known_name_bool_data
    = [(1%Z, Rust.ECarrier "Lamp" [("half", Rust.LBool true)]);
       (2%Z, Rust.ECarrier "Lamp" [("half", Rust.LBool false)])] ∧
  encode_arms known_name_bool_data
    = [Rust.EncCarrier "Lamp" [([("half", Rust.LBool true)], 1%Z);
                               ([("half", Rust.LBool false)], 2%Z)]] ∧
  (state_code <$> to_option (generate known_name_bool_data))
    = Some (DERIVES +:+ "pub struct LampData {" +:+ "pub half: Half," +:+
            Py.nl +:+ "}" +:+ Py.nl +:+ Py.nl).
Proof. vm_compute. done. Qed.

(** ** Round trip *)

Lemma decode_arms_ids (data : Data) :
  fst <$> decode_arms data = all_state_ids data.
Proof.
  unfold decode_arms, all_state_ids, block_decode_arms.
  induction data as [|entry data IH]; [done|].
  rewrite !bind_cons, fmap_app, IH. f_equal.
  by rewrite <-list_fmap_compose.
Qed.


Lemma encode_arm_matches_variant b a :
  Rust.encode_arm_matches b a = true →
  match a with
  | Rust.EncUnit v _ | Rust.EncCarrier v _ => v
  end = match b with
        | Rust.Unit v | Rust.Carrier v _ => v
        end.
Proof.
  destruct b, a; cbn; try done; by intros ->%bool_decide_eq_true.
Qed.





Lemma known_enums_code_table :
  known_enums_code = Rust.cat (render_known_enum <$> known_enums).
Proof. vm_compute. reflexivity. Qed.

(** The arms of the document of C3 are not typed. *)
Lemma known_name_bool_arms_not_typed :
  arms_typed known_name_bool_data = false.
Proof. vm_compute. reflexivity. Qed.




(** ** States with the same property names *)

Lemma conds_hold_same_keys (m : gmap string Rust.val)
    (conds fields : list (string * Rust.lit)) :
  fst <$> conds = fst <$> fields →
  (∀ k l, (k, l) ∈ fields → m !! k = Some (Rust.denote l)) →
  forallb (Rust.cond_holds m) conds
  = bool_decide (Rust.denote ∘ snd <$> conds = Rust.denote ∘ snd <$> fields).
Proof.
  revert fields.
  induction conds as [|[k l] conds IH]; intros [|[k' l'] fields]; try done.
  rewrite !fmap_cons. cbn [fst snd compose]. intros [= <- Hkeys] Hm.
  cbn [forallb]. rewrite (IH fields Hkeys).
  2: { intros ? ? ?. apply Hm. by right. }
  unfold Rust.cond_holds at 1. cbn [fst snd].
  rewrite (Hm k l') by left.
  destruct (decide (Rust.denote l = Rust.denote l')) as [Heq|Hne].
  - rewrite Heq, bool_decide_eq_true_2 by done. cbn [andb].
    apply bool_decide_ext. split; [by intros ->|by intros [= ?]].
  - rewrite bool_decide_eq_false_2 by congruence. cbn [andb].
    symmetry. apply bool_decide_eq_false_2. by intros [= ? ?].
Qed.

Lemma state_record_lookup (camel : string) (state : State) (k : string)
    (l : Rust.lit) :
  NoDup (fst <$> state_fields camel state) →
  (k, l) ∈ state_fields camel state →
  state_record camel state !! k = Some (Rust.denote l).
Proof.
  intros Hnodup Hin. unfold state_record.
  apply elem_of_list_to_map_1.
  - rewrite <-list_fmap_compose.
    by replace (fst ∘ prod_map id Rust.denote)
      with (fst : string * Rust.lit → string) by done.
  - by apply (list_elem_of_fmap_2 (prod_map id Rust.denote) _ (k, l)).
Qed.

(** When the states of a block list the same property names, none of them
    twice as a field and at least one, the test of a state holds on the
    data struct of another exactly when the two give every field the same
    value. *)
Lemma test_holds_same_names (camel : string) (s t : State) :
  fst <$> state_fields camel s = fst <$> state_fields camel t →
  NoDup (fst <$> state_fields camel t) →
  state_fields camel s ≠ [] →
  Rust.test_holds (state_record camel t) (state_test_of camel s)
  = bool_decide (state_values camel s = state_values camel t).
Proof.
  intros Hkeys Hnodup Hne. unfold Rust.test_holds, state_test_of. cbn [fst].
  destruct (state_fields camel s) as [|c conds] eqn:Hs; [done|].
  rewrite <-Hs in *. unfold state_values.
  apply conds_hold_same_keys; [done|].
  intros k l. by apply state_record_lookup.
Qed.

(** A block is [told_apart] when its states list the same property names
    and two of them agree on every value only when they have the same
    id. *)
Lemma told_apart_same_names (entry : string * BlockObj) (keys : list string) :
  keys ≠ [] → NoDup keys →
  (∀ s, s ∈ states entry.2 →
        fst <$> state_fields (variant_name entry.1) s = keys) →
  (∀ s t, s ∈ states entry.2 → t ∈ states entry.2 →
          state_values (variant_name entry.1) s
            = state_values (variant_name entry.1) t
          ↔ state_id s = state_id t) →
  told_apart entry = true.
Proof.
  intros Hne Hnodup Hkeys Hvalues. unfold told_apart.
  apply orb_true_iff. right.
  apply forallb_forall. intros t Ht%list_elem_of_In.
  apply forallb_forall. intros s Hs%list_elem_of_In.
  rewrite test_holds_same_names.
  - apply Bool.eqb_true_iff, bool_decide_ext. by apply Hvalues.
  - by rewrite !Hkeys.
  - by rewrite Hkeys.
  - intros Hnil. apply Hne. by rewrite <-(Hkeys s Hs), Hnil.
Qed.

(** ** Camel case and back *)

Lemma lower_not_upper c : Py.is_lower c = true → Py.is_upper c = false.
Proof. destruct c as [[] [] [] [] [] [] [] []]; by vm_compute. Qed.
Lemma digit_not_lower c : Py.is_digit c = true → Py.is_lower c = false.
Proof. destruct c as [[] [] [] [] [] [] [] []]; by vm_compute. Qed.
Lemma digit_not_upper c : Py.is_digit c = true → Py.is_upper c = false.
Proof. destruct c as [[] [] [] [] [] [] [] []]; by vm_compute. Qed.
Lemma is_upper_to_upper c :
  Py.is_lower c = true → Py.is_upper (Py.to_upper c) = true.
Proof. destruct c as [[] [] [] [] [] [] [] []]; by vm_compute. Qed.
Lemma to_lower_to_upper c :
  Py.is_lower c = true → Py.to_lower (Py.to_upper c) = c.
Proof. destruct c as [[] [] [] [] [] [] [] []]; by vm_compute. Qed.

Lemma title_go_word_tail (seen_digit : bool) (s : string) :
  word_tail seen_digit s = true → Py.title_go (negb seen_digit) s = s.
Proof.
  revert seen_digit. induction s as [|c s IH]; intros seen_digit; [done|].
  cbn [word_tail Py.title_go].
  destruct (Py.is_lower c) eqn:Hlower.
  - intros [Hseen Htail]%andb_true_iff. apply negb_true_iff in Hseen as ->.
    cbn [negb]. f_equal. by apply (IH false).
  - destruct (Py.is_digit c) eqn:Hdigit; [|done].
    rewrite (digit_not_upper c Hdigit). intros Htail. f_equal.
    by apply (IH true).
Qed.

Lemma title_plain_word (c : ascii) (w : string) :
  plain_word (String c w) = true →
  Py.title (String c w) = String (Py.to_upper c) w.
Proof.
  cbn [plain_word]. intros [Hlower Htail]%andb_true_iff.
  unfold Py.title. cbn [Py.title_go]. rewrite Hlower. f_equal.
  by apply (title_go_word_tail false).
Qed.

Lemma upper_camel_to_snake_go_tail (seen_digit : bool) (s rest : string) :
  word_tail seen_digit s = true →
  upper_camel_to_snake_go (s +:+ rest) = s +:+ upper_camel_to_snake_go rest.
Proof.
  revert seen_digit. induction s as [|c s IH]; intros seen_digit; [done|].
  cbn [word_tail]. rewrite str_app_cons. cbn [upper_camel_to_snake_go].
  destruct (Py.is_lower c) eqn:Hlower.
  - intros [_ Htail]%andb_true_iff. rewrite (lower_not_upper c Hlower).
    rewrite str_app_cons. f_equal. by apply (IH false).
  - destruct (Py.is_digit c) eqn:Hdigit; [|done].
    rewrite (digit_not_upper c Hdigit). intros Htail.
    rewrite str_app_cons. f_equal. by apply (IH true).
Qed.

Lemma upper_camel_to_snake_go_word (w rest : string) :
  plain_word w = true →
  upper_camel_to_snake_go (Py.title w +:+ rest)
  = "_" +:+ w +:+ upper_camel_to_snake_go rest.
Proof.
  destruct w as [|c w]; [done|]. intros Hplain.
  rewrite (title_plain_word c w Hplain).
  cbn [plain_word] in Hplain. apply andb_true_iff in Hplain as [Hlower Htail].
  rewrite str_app_cons. cbn [upper_camel_to_snake_go].
  rewrite (is_upper_to_upper c Hlower), (to_lower_to_upper c Hlower).
  rewrite (upper_camel_to_snake_go_tail false w rest Htail). done.
Qed.

Lemma upper_camel_to_snake_go_words (ws : list string) :
  forallb plain_word ws = true →
  upper_camel_to_snake_go (Rust.cat (Py.title <$> ws))
  = Rust.cat ((λ w, "_" +:+ w) <$> ws).
Proof.
  induction ws as [|w ws IH]; [done|].
  cbn [forallb]. intros [Hw Hws]%andb_true_iff.
  rewrite !fmap_cons, !cat_cons, (upper_camel_to_snake_go_word w _ Hw), IH by done.
  by rewrite str_app_assoc.
Qed.

Lemma split_nonempty (sep : ascii) (s : string) : Py.split sep s ≠ [].
Proof.
  destruct s as [|c s]; [done|]. cbn [Py.split].
  destruct (Ascii.eqb c sep); [done|]. by destruct (Py.split sep s).
Qed.

Lemma cat_split_underscore (s : string) :
  Rust.cat ((λ w, "_" +:+ w) <$> Py.split "_" s) = "_" +:+ s.
Proof.
  induction s as [|c s IH]; [done|]. cbn [Py.split].
  destruct (Ascii.eqb_spec c "_") as [->|Hc].
  - rewrite fmap_cons, cat_cons, IH. done.
  - destruct (Py.split "_" s) as [|w ws] eqn:Hsplit;
      [by destruct (split_nonempty "_" s)|].
    rewrite fmap_cons, cat_cons in IH |- *.
    change (String "_" (String c (w +:+ Rust.cat ((λ w, "_" +:+ w) <$> ws)))
            = String "_" (String c s)).
    change (String "_" (w +:+ Rust.cat ((λ w, "_" +:+ w) <$> ws))
            = String "_" s) in IH.
    injection IH as ->. done.
Qed.

Lemma upper_camel_to_snake_camel (s : string) :
  plain_snake s = true → upper_camel_to_snake (snake_to_upper_camel s) = s.
Proof.
  unfold plain_snake, upper_camel_to_snake, snake_to_upper_camel. intros Hs.
  rewrite join_empty_cat, upper_camel_to_snake_go_words by done.
  by rewrite cat_split_underscore.
Qed.

(** C9, as stated, fails: names with a numeral inside, or with a doubled
    or trailing underscore, get the camel-case name of another name, so no
    transform of the camel-case text gives each of them back. *)
Lemma camel_case_merges_names :
  snake_to_upper_camel "a1b" = "A1B" ∧
  snake_to_upper_camel "a_1b" = "A1B" ∧
  snake_to_upper_camel "a1_b" = "A1B" ∧
  snake_to_upper_camel "stage_1" = snake_to_upper_camel "stage1" ∧
  snake_to_upper_camel "inner__left" = snake_to_upper_camel "inner_left" ∧
  snake_to_upper_camel "left_" = snake_to_upper_camel "left" ∧
  "a1b" ≠ "a_1b".
Proof. vm_compute. done. Qed.

(** C9, amended: on plain snake_case names, words of lower-case letters
    with digits only at their end, separated by single underscores, the
    camel-casing is injective and is inverted by a textual transform. *)
Theorem camel_case_inverted_on_plain_names (s : string) :
  plain_snake s = true →
  upper_camel_to_snake (snake_to_upper_camel s) = s ∧
  ∀ t, plain_snake t = true →
       snake_to_upper_camel s = snake_to_upper_camel t → s = t.
Proof.
  intros Hs. split; [by apply upper_camel_to_snake_camel|].
  intros t Ht Heq.
  rewrite <-(upper_camel_to_snake_camel s Hs), <-(upper_camel_to_snake_camel t Ht).
  by rewrite Heq.
Qed.

Lemma camel_case_inverted_on_plain_names_witness :
  upper_camel_to_snake (snake_to_upper_camel "north_east") = "north_east".
Proof.
  refine (proj1 (camel_case_inverted_on_plain_names "north_east" _)).
  reflexivity.
Defined.

(** ** Exceptions of the generator *)

Lemma for_each_app {A S} (body : A → S → result S) (l k : list A) (s : S) :
  for_each body (l ++ k) s = s' ← for_each body l s; for_each body k s'.
Proof.
  revert s. induction l as [|a l IH]; intros s; [done|].
  cbn [app for_each]. destruct (body a s) as [s1|e]; [|done].
  cbn [mbind result_bind]. apply IH.
Qed.

Lemma forallb_Forall {A} (P : A → bool) (l : list A) :
  forallb P l = true ↔ Forall (λ x, P x = true) l.
Proof.
  induction l as [|a l IH]; cbn [forallb]; [by split|].
  rewrite andb_true_iff, Forall_cons, IH. done.
Qed.

Lemma block_ok_spec (obj : BlockObj) :
  block_ok obj = true ↔
  length (states obj) = 1 ∨
  ∃ props, properties obj = Some props ∧
           Forall (λ p, p.2 ≠ []) props ∧
           Forall (λ state, is_Some (state_properties state)) (states obj).
Proof.
  unfold block_ok, single_state. rewrite orb_true_iff.
  pose proof (Nat.eqb_eq (length (states obj)) 1) as Hlen.
  assert (match properties obj with
          | Some props =>
              forallb (λ p : string * list string, bool_decide (p.2 ≠ []))
                props &&
              forallb (λ state, bool_decide (is_Some (state_properties state)))
                (states obj)
          | None => false
          end = true ↔
          ∃ props, properties obj = Some props ∧
                   Forall (λ p, p.2 ≠ []) props ∧
                   Forall (λ state, is_Some (state_properties state))
                          (states obj)) as Hrest; [|tauto].
  destruct (properties obj) as [props|]; [|by split; [|intros (? & ? & _)]].
  rewrite andb_true_iff, !forallb_Forall.
  setoid_rewrite bool_decide_eq_true. split.
  - intros [Hprops Hstates]. by exists props.
  - by intros (? & [= <-] & Hprops & Hstates).
Qed.

(** X1: when the generator finishes, every block that does not have
    exactly one state has ["properties"], gives each property at least one
    value, and has ["properties"] in each of its states: a block that
    misses one of these makes the generator raise. *)
Theorem generate_needs_properties (data : Data) (g : gen_state) :
  generate data = OK g →
  Forall (λ entry : string * BlockObj,
    length (states entry.2) = 1 ∨
    ∃ props, properties entry.2 = Some props ∧
             Forall (λ p, p.2 ≠ []) props ∧
             Forall (λ state, is_Some (state_properties state))
                    (states entry.2))
    data.
Proof.
  intros Hgen.
  assert (is_OK (generate data)) as Hok by by exists g.
  apply generate_ok, forallb_Forall in Hok.
  eapply Forall_impl; [exact Hok|].
  intros entry. apply block_ok_spec.
Qed.

Lemma generate_needs_properties_witness :
  Forall (λ entry : string * BlockObj,
    length (states entry.2) = 1 ∨
    ∃ props, properties entry.2 = Some props ∧
             Forall (λ p, p.2 ≠ []) props ∧
             Forall (λ state, is_Some (state_properties state))
                    (states entry.2))
    oak_log_data.
Proof.
  apply (generate_needs_properties oak_log_data
           (finish (gapp initial_state (arms_text oak_log_data)))).
  vm_compute. reflexivity.
Defined.

(** X2: a block whose number of states is not one and which lacks
    ["properties"] stops the generator with [KeyError("properties")] when
    the blocks before it are fine; this includes a block with no state at
    all. *)
Theorem missing_properties_raises_KeyError
    (before after : Data) (entry : string * BlockObj) :
  is_OK (generate before) →
  length (states entry.2) ≠ 1 →
  properties entry.2 = None →
  generate (before ++ entry :: after) = Raise (KeyError "properties").
Proof.
  intros Hbefore%generate_ok Hlen Hnone. unfold generate.
  rewrite for_each_app.
  destruct (proj2 (for_each_ok gen_block (block_ok ∘ snd) gen_block_ok
                     before initial_state) Hbefore) as [g ->].
  cbn [mbind result_bind for_each].
  destruct entry as [block_identifier obj]. unfold gen_block.
  cbn [snd] in Hlen, Hnone. apply Nat.eqb_neq in Hlen. rewrite Hlen, Hnone.
  done.
Qed.

Lemma missing_properties_raises_KeyError_witness :
  generate (torch_data ++ no_properties_entry :: oak_log_data)
  = Raise (KeyError "properties") ∧
  generate (torch_data ++ ("minecraft:air", mkBlock None []) :: [])
  = Raise (KeyError "properties").
Proof.
  split.
  - apply (missing_properties_raises_KeyError torch_data oak_log_data
             no_properties_entry).
    + eexists. vm_compute. reflexivity.
    + cbn. lia.
    + reflexivity.
  - apply (missing_properties_raises_KeyError torch_data []
             ("minecraft:air", mkBlock None [])).
    + eexists. vm_compute. reflexivity.
    + cbn. lia.
    + reflexivity.
Defined.

(** ** Runs of the script *)

(** X4: called with the same path for input and output, the script empties
    the file before it reads it: what [json.load] gets is the empty text,
    and with a loader that rejects the empty text, as [json.load] does, the
    run fails with [ValueError] and the document is lost. *)
Theorem run_on_same_path_loses_input
    (json_load : string → option Data) (argv : list string)
    (path text : string) (files : gmap string string) :
  argv !! 1 = Some path →
  argv !! 2 = Some path →
  files !! path = Some text →
  json_load "" = None →
  run json_load argv files = (Raise ValueError, <[path := ""]> files) ∧
  (run json_load argv files).2 !! path = Some "".
Proof.
  intros Hin Hout Hfile Hload.
  assert (run json_load argv files
          = (Raise ValueError, <[path := ""]> files)) as ->.
  { unfold run. rewrite Hin, Hout, Hfile, lookup_insert_eq.
    cbn [mbind option_bind]. by rewrite Hload. }
  split; [done|]. apply lookup_insert_eq.
Qed.

Lemma run_on_same_path_loses_input_witness :
  (run load_empty_document ["blocks.py"; "blocks.json"; "blocks.json"]
     {["blocks.json" := "{}"]}).2 !! "blocks.json" = Some "".
Proof.
  refine (proj2 (run_on_same_path_loses_input load_empty_document
    ["blocks.py"; "blocks.json"; "blocks.json"] "blocks.json" "{}"
    {["blocks.json" := "{}"]} _ _ _ _)).
  - reflexivity.
  - reflexivity.
  - vm_compute. reflexivity.
  - reflexivity.
Defined.

(** X5: the script ends with status 0 only when it has loaded a document
    from the input path, the generator has accepted it, and every write
    has been done: the output path then holds the whole generated text of
    this document. *)
Theorem exit_status_zero_means_whole_text
    (json_load : string → option Data) (argv : list string)
    (files : gmap string string) :
  exit_status (run json_load argv files).1 = 0%Z →
  ∃ in_path out_path text data g,
    argv !! 1 = Some in_path ∧ argv !! 2 = Some out_path ∧
    <[out_path := ""]> files !! in_path = Some text ∧
    json_load text = Some data ∧
    generate data = OK g ∧
    (run json_load argv files).2 !! out_path = Some (output_text g).
Proof.
  unfold run.
  destruct (argv !! 1) as [in_path|]; [|done].
  destruct (argv !! 2) as [out_path|]; [|done].
  destruct (files !! in_path) as [text|]; [|done].
  destruct (<[out_path := ""]> files !! in_path) as [text'|] eqn:Htext;
    cbn [mbind option_bind]; [|done].
  destruct (json_load text') as [data|] eqn:Hload; [|done].
  destruct (generate data) as [g|e] eqn:Hgen; [|done].
  intros _. exists in_path, out_path, text', data, g.
  cbn [snd]. by rewrite lookup_insert_eq.
Qed.

Lemma exit_status_zero_means_whole_text_witness :
  ∃ in_path out_path text data g,
    ["blocks.py"; "blocks.json"; "lib.rs"] !! 1 = Some in_path ∧
    ["blocks.py"; "blocks.json"; "lib.rs"] !! 2 = Some out_path ∧
    <[out_path := ""]> ({["blocks.json" := "{}"]} : gmap string string)
      !! in_path = Some text ∧
    load_empty_document text = Some data ∧
    generate data = OK g ∧
    (run load_empty_document ["blocks.py"; "blocks.json"; "lib.rs"]
       {["blocks.json" := "{}"]}).2 !! out_path = Some (output_text g).
Proof.
  apply (exit_status_zero_means_whole_text load_empty_document
           ["blocks.py"; "blocks.json"; "lib.rs"] {["blocks.json" := "{}"]}).
  vm_compute. reflexivity.
Defined.

(** X6: with fewer than two arguments after the script name, or with an
    input path that names no file, the script fails before it opens the
    output: the exit status is 1 and no file is created or changed. *)
Theorem early_failure_touches_no_file
    (json_load : string → option Data) (argv : list string)
    (files : gmap string string) :
  (length argv < 3 ∨ ∃ in_path, argv !! 1 = Some in_path ∧
                                files !! in_path = None) →
  exit_status (run json_load argv files).1 = 1%Z ∧
  (run json_load argv files).2 = files.
Proof.
  unfold run. intros [Hlen|(in_path & Hin & Hnone)].
  - destruct (argv !! 1) as [in_path|]; [|done].
    rewrite (lookup_ge_None_2 argv 2) by lia. done.
  - rewrite Hin, Hnone. by destruct (argv !! 2).
Qed.

Lemma early_failure_touches_no_file_witness :
  (run load_empty_document ["blocks.py"; "blocks.json"]
     {["lib.rs" := "pub enum Block {}"]}).2
  = {["lib.rs" := "pub enum Block {}"]} ∧
  (run load_empty_document ["blocks.py"; "blocks.json"; "lib.rs"]
     {["lib.rs" := "pub enum Block {}"]}).2
  = {["lib.rs" := "pub enum Block {}"]}.
Proof.
  split.
  - refine (proj2 (early_failure_touches_no_file load_empty_document
      ["blocks.py"; "blocks.json"] {["lib.rs" := "pub enum Block {}"]} _)).
    left. cbn. lia.
  - refine (proj2 (early_failure_touches_no_file load_empty_document
      ["blocks.py"; "blocks.json"; "lib.rs"]
      {["lib.rs" := "pub enum Block {}"]} _)).
    right. exists "blocks.json". split; [reflexivity|].
    vm_compute. reflexivity.
Defined.

(** ** The pure helpers *)

Lemma length_app_string (s t : string) :
  String.length (s +:+ t) = String.length s + String.length t.
Proof.
  induction s as [|c s IH]; [done|].
  rewrite str_app_cons. cbn [String.length]. by rewrite IH.
Qed.

Lemma count_char_app (c : ascii) (s t : string) :
  count_char c (s +:+ t) = count_char c s + count_char c t.
Proof.
  induction s as [|c' s IH]; [done|].
  rewrite str_app_cons. cbn [count_char]. rewrite IH. lia.
Qed.

Lemma title_char_not_underscore (c : ascii) :
  (Py.is_lower c = true ∨ Py.is_upper c = true) →
  Ascii.eqb c "_" = false ∧ Ascii.eqb (Py.to_upper c) "_" = false ∧
  Ascii.eqb (Py.to_lower c) "_" = false.
Proof.
  destruct c as [[] [] [] [] [] [] [] []]; vm_compute; intros [?|?]; done.
Qed.

Lemma title_go_length (b : bool) (s : string) :
  String.length (Py.title_go b s) = String.length s.
Proof.
  revert b. induction s as [|c s IH]; intros b; [done|].
  cbn [Py.title_go].
  destruct (Py.is_lower c); [|destruct (Py.is_upper c)];
    cbn [String.length]; by rewrite IH.
Qed.

Lemma title_go_count_underscore (b : bool) (s : string) :
  count_char "_" (Py.title_go b s) = count_char "_" s.
Proof.
  revert b. induction s as [|c s IH]; intros b; [done|].
  cbn [Py.title_go].
  destruct (Py.is_lower c) eqn:Hlower; [|destruct (Py.is_upper c) eqn:Hupper].
  - destruct (title_char_not_underscore c) as (Hc & Hup & _); [by left|].
    cbn [count_char]. rewrite IH, Hc. by destruct b; rewrite ?Hc, ?Hup.
  - destruct (title_char_not_underscore c) as (Hc & _ & Hlow); [by right|].
    cbn [count_char]. rewrite IH, Hc. by destruct b; rewrite ?Hc, ?Hlow.
  - cbn [count_char]. by rewrite IH.
Qed.

Lemma split_underscore_words (s : string) :
  Forall (λ w, count_char "_" w = 0) (Py.split "_" s) ∧
  String.length (Rust.cat (Py.split "_" s)) + count_char "_" s
  = String.length s.
Proof.
  induction s as [|c s [IHwords IHlen]].
  { split; [by repeat constructor|reflexivity]. }
  cbn [Py.split count_char String.length].
  destruct (Ascii.eqb c "_") eqn:Hc.
  - split; [by constructor|]. rewrite cat_cons, str_app_nil_l. lia.
  - destruct (Py.split "_" s) as [|w ws] eqn:Hsplit;
      [by destruct (split_nonempty "_" s)|].
    apply Forall_cons in IHwords as [Hw Hws].
    rewrite cat_cons, length_app_string in IHlen.
    split.
    + constructor; [|done]. cbn [count_char]. by rewrite Hc, Hw.
    + rewrite cat_cons, length_app_string. cbn [String.length]. lia.
Qed.

Lemma cat_title_words (ws : list string) :
  Forall (λ w, count_char "_" w = 0) ws →
  count_char "_" (Rust.cat (Py.title <$> ws)) = 0 ∧
  String.length (Rust.cat (Py.title <$> ws)) = String.length (Rust.cat ws).
Proof.
  induction 1 as [|w ws Hw _ [IHcount IHlen]]; [done|].
  rewrite fmap_cons, !cat_cons, count_char_app, !length_app_string.
  unfold Py.title at 1 3.
  by rewrite title_go_count_underscore, title_go_length, Hw, IHcount, IHlen.
Qed.

Lemma camel_no_underscore (s : string) :
  count_char "_" (snake_to_upper_camel s) = 0.
Proof.
  destruct (split_underscore_words s) as [Hwords _].
  destruct (cat_title_words _ Hwords) as [Hcount _].
  unfold snake_to_upper_camel. by rewrite join_empty_cat.
Qed.

(** X7: for every text, the camel-case name has no underscore, is shorter
    than the text by exactly the number of its underscores, and does not
    start with a lower-case letter. *)
Theorem snake_to_upper_camel_drops_underscores (s : string) :
  count_char "_" (snake_to_upper_camel s) = 0 ∧
  String.length (snake_to_upper_camel s) + count_char "_" s
    = String.length s ∧
  starts_lower (snake_to_upper_camel s) = false.
Proof.
  destruct (split_underscore_words s) as [Hwords Hlen].
  destruct (cat_title_words _ Hwords) as [Hcount Hlen'].
  assert (snake_to_upper_camel s = Rust.cat (Py.title <$> Py.split "_" s))
    as Hcamel by apply join_empty_cat.
  split; [by rewrite Hcamel|]. split; [by rewrite Hcamel, Hlen'|].
  apply starts_lower_camel.
Qed.

Lemma elem_KEYWORDS (s : string) :
  Py.elem s KEYWORDS = true ↔ s = "type" ∨ s = "in".
Proof.
  unfold Py.elem, KEYWORDS. cbn [existsb].
  rewrite !orb_true_iff, !String.eqb_eq.
  split; [intros [?|[?|?]]|intros [?|?]]; auto; done.
Qed.

(** X8: the field name [process_property_name] gives is never one of the
    listed keywords; it is the name itself or the name with one underscore
    added, and a second application changes nothing. *)
Theorem process_property_name_escapes (s : string) :
  Py.elem (process_property_name s) KEYWORDS = false ∧
  (process_property_name s = s ∨ process_property_name s = s +:+ "_") ∧
  process_property_name (process_property_name s) = process_property_name s.
Proof.
  assert (Py.elem (process_property_name s) KEYWORDS = false) as Hnot.
  { unfold process_property_name.
    destruct (Py.elem s KEYWORDS) eqn:Hs; [|done].
    by apply elem_KEYWORDS in Hs as [-> | ->]. }
  split; [done|]. split.
  - unfold process_property_name. destruct (Py.elem s KEYWORDS); auto.
  - unfold process_property_name at 1. by rewrite Hnot.
Qed.

Lemma slice_from_suffix (n : nat) (s : string) :
  ∃ pre, s = pre +:+ Py.slice_from n s ∧
         String.length pre = n `min` String.length s.
Proof.
  revert s. induction n as [|n IH]; intros s; [by exists ""|].
  destruct s as [|c s]; [by exists ""|].
  destruct (IH s) as (pre & Heq & Hlen). exists (String c pre).
  cbn [Py.slice_from String.length]. rewrite str_app_cons, <-Heq.
  split; [done|]. lia.
Qed.

(** X9: the block name is what is left of the identifier after its first
    ten characters, or after all of them when there are fewer: nothing is
    reordered or changed, and the lengths differ by ten at most. *)
Theorem strip_minecraft_identifier_suffix (s : string) :
  (∃ pre, s = pre +:+ strip_minecraft_identifier s ∧
          String.length pre = 10 `min` String.length s) ∧
  String.length (strip_minecraft_identifier s) = String.length s - 10.
Proof.
  destruct (slice_from_suffix 10 s) as (pre & Heq & Hlen).
  split; [by exists pre|].
  fold (strip_minecraft_identifier s) in Heq.
  apply (f_equal String.length) in Heq. rewrite length_app_string in Heq.
  lia.
Qed.

(** ** What the generated functions return *)

Lemma find_None_Forall {A} (P : A → bool) (l : list A) :
  find P l = None ↔ Forall (λ x, P x = false) l.
Proof.
  induction l as [|a l IH]; cbn [find]; [by split|].
  rewrite Forall_cons. destruct (P a); [|by rewrite IH; split; [|intros []]].
  split; [done|]. by intros [? _].
Qed.

Lemma find_Some_elem {A} (P : A → bool) (l : list A) (x : A) :
  find P l = Some x → x ∈ l ∧ P x = true.
Proof. intros [? ?]%find_some. split; [by apply list_elem_of_In|done]. Qed.

Lemma elem_of_decode_arms (data : Data) (arm : Rust.decode_arm) :
  arm ∈ decode_arms data ↔
  ∃ entry state, entry ∈ data ∧ state ∈ states entry.2 ∧
                 arm = (state_id state, state_expr entry state).
Proof.
  unfold decode_arms, block_decode_arms. rewrite list_elem_of_bind. split.
  - intros (entry & (state & -> & ?)%list_elem_of_fmap & ?).
    by exists entry, state.
  - intros (entry & state & ? & ? & ->). exists entry. split; [|done].
    by apply (list_elem_of_fmap_2
                (λ state, (state_id state, state_expr entry state))).
Qed.

(** X10: on a document the generator accepts, the text of
    [from_block_state_id] is one arm per state, in document order, and on
    these arms a [u16] number reaches the panic exactly when it is the id
    of no state of the document; on any other number the first arm with
    this id is taken, which builds the value of a state of the document
    that has this id. *)
Theorem Decode_covers_the_state_ids (data : Data) (g : gen_state) (code : Z) :
  generate data = OK g →
  fits_u16 code = true →
  from_block_state_id_code g
    = from_block_state_id_code_header +:+
      Rust.cat (Rust.render_decode_arm <$> decode_arms data) +:+
      from_block_state_id_code_footer ∧
  fst <$> decode_arms data = all_state_ids data ∧
  (Decode data code = None ↔ code ∉ all_state_ids data) ∧
  (∀ b, Decode data code = Some b →
        ∃ entry state, entry ∈ data ∧ state ∈ states entry.2 ∧
                       state_id state = code ∧ b = state_value entry state).
Proof.
  intros Hgen _. split; [|split; [apply decode_arms_ids|]].
  { apply generate_arms_text in Hgen as ->. cbn. by str_norm. }
  unfold Decode, Rust.from_block_state_id. split.
  - rewrite fmap_None, find_None_Forall, <-decode_arms_ids, Forall_forall.
    split.
    + intros Hall (arm & -> & Harm)%list_elem_of_fmap.
      apply Hall in Harm. by apply bool_decide_eq_false in Harm.
    + intros Hnotin arm Harm. apply bool_decide_eq_false. intros <-.
      apply Hnotin. by apply list_elem_of_fmap_2.
  - intros b (arm & Hfind & ->)%fmap_Some.
    apply find_Some_elem in Hfind as [Harm Hcode%bool_decide_eq_true].
    apply elem_of_decode_arms in Harm as (entry & state & ? & ? & ->).
    by exists entry, state.
Qed.

Lemma Decode_covers_the_state_ids_witness :
  from_block_state_id_code
    (finish (gapp initial_state (arms_text oak_log_data)))
    = from_block_state_id_code_header +:+
      Rust.cat (Rust.render_decode_arm <$> decode_arms oak_log_data) +:+
      from_block_state_id_code_footer ∧
  (Decode oak_log_data 13 = None ↔ 13%Z ∉ all_state_ids oak_log_data).
Proof.
  destruct (Decode_covers_the_state_ids oak_log_data
              (finish (gapp initial_state (arms_text oak_log_data))) 13)
    as (Htext & _ & Hnone & _).
  - vm_compute. reflexivity.
  - reflexivity.
  - split; [exact Htext|exact Hnone].
Defined.

Lemma elem_of_encode_tests (camel : string) (sts : list State)
    (fields : gmap string Rust.val) (test : Rust.state_test) :
  find (Rust.test_holds fields)
       ((λ state, (state_fields camel state, state_id state)) <$> sts)
    = Some test →
  ∃ state, state ∈ sts ∧ state_id state = test.2.
Proof.
  intros [(state & -> & ?)%list_elem_of_fmap _]%find_Some_elem.
  by exists state.
Qed.

(** X11: on a document the generator accepts, the text of
    [block_state_id] is one arm per block, in document order, and on these
    arms the function returns only ids of the document, whatever value it
    is given: a number it returns is the id of a state of a block whose
    variant is the variant of the value. *)
Theorem Encode_returns_state_ids
    (data : Data) (g : gen_state) (b : Rust.block) (code : Z) :
  generate data = OK g →
  Encode data b = Some code →
  block_state_id_code g
    = block_state_id_code_header +:+
      Rust.cat (Rust.render_encode_arm <$> encode_arms data) +:+
      block_state_id_code_footer ∧
  ∃ entry state, entry ∈ data ∧ state ∈ states entry.2 ∧
                 state_id state = code ∧
                 variant_name entry.1 = block_variant b.
Proof.
  intros Hgen Hencode. split.
  { apply generate_arms_text in Hgen as ->. cbn. by str_norm. }
  revert Hencode. unfold Encode, Rust.block_state_id.
  destruct (find _ (encode_arms data)) as [arm|] eqn:Hfind; [|done].
  apply find_Some_elem in Hfind as [Harm Hmatch].
  apply list_elem_of_fmap in Harm as (entry & -> & Hentry).
  apply encode_arm_matches_variant in Hmatch.
  unfold block_encode_arm in *.
  destruct (single_state entry.2) eqn:Hsingle.
  - intros [= <-]. apply length_one in Hsingle as [state0 Hstates].
    exists entry, state0. rewrite Hstates. split; [done|].
    split; [by left|]. by destruct b.
  - destruct b as [variant|variant fields]; [done|].
    intros (test & Htest & ->)%fmap_Some.
    apply elem_of_encode_tests in Htest as (state & ? & ?).
    by exists entry, state.
Qed.

Lemma Encode_returns_state_ids_witness :
  ∃ entry state, entry ∈ oak_log_data ∧ state ∈ states entry.2 ∧
                 state_id state = 11%Z ∧
                 variant_name entry.1 = "OakLog".
Proof.
  refine (proj2 (Encode_returns_state_ids oak_log_data
    (finish (gapp initial_state (arms_text oak_log_data)))
    (Rust.Carrier "OakLog" {["axis" := Rust.VEnum "Axis" "Y"]}) 11 _ _)).
  - vm_compute. reflexivity.
  - vm_compute. reflexivity.
Defined.

(** ** Blocks with one state *)

(** X12: for a block with exactly one state the generator reads no
    ["properties"], of the block or of the state: it does what it does for
    the same block with nothing but the id of its state, and when it
    finishes it has added the unit variant to the enum and nothing to the
    structs, to the enums or to [property_names]. *)
Theorem single_state_block_ignores_properties
    (block_identifier : string) (obj : BlockObj) (state0 : State)
    (g g' : gen_state) :
  states obj = [state0] →
  gen_block (block_identifier, obj) g = OK g' →
  gen_block (block_identifier,
             mkBlock None [mkState (state_id state0) None]) g = OK g' ∧
  enum_code g'
    = enum_code g +:+ variant_name block_identifier +:+ "," +:+ Py.nl ∧
  state_code g' = state_code g ∧
  end_code g' = end_code g ∧
  property_names_code g' = property_names_code g.
Proof.
  intros Hstates. unfold gen_block. rewrite Hstates.
  cbn [length Nat.eqb negb head_item mbind result_bind states state_id].
  intros [= <-]. split; [reflexivity|]. done.
Qed.

Lemma single_state_block_ignores_properties_witness :
  gen_block ("minecraft:lamp", mkBlock None [mkState 7 None]) initial_state
  = OK (gapp initial_state
          (block_delta ("minecraft:lamp",
                        mkBlock (Some [("lit", ["true"])])
                                [mkState 7 (Some [("lit", "true")])]))).
Proof.
  refine (proj1 (single_state_block_ignores_properties "minecraft:lamp"
              (mkBlock (Some [("lit", ["true"])])
                       [mkState 7 (Some [("lit", "true")])])
              (mkState 7 (Some [("lit", "true")])) initial_state _ _ _)).
  - reflexivity.
  - vm_compute. reflexivity.
Defined.

(** ** Known property names *)

Lemma camel_is_not_enum_marker (s : string) :
  String.eqb (snake_to_upper_camel s) "_enum" = false.
Proof.
  apply String.eqb_neq. intros Heq.
  pose proof (camel_no_underscore s) as Hcount.
  by rewrite Heq in Hcount.
Qed.

(** X13: for a property with a known name, whatever its values, the field
    of the data struct has the shared enum named after the property, and
    no enum of the block's own is declared: the loop body adds nothing to
    [end_code]. *)
Theorem known_property_uses_shared_enum
    (camel prop_name : string) (vals : list string) (g g' : gen_state) :
  Py.elem prop_name KNOWN_PROPERTIES = true →
  gen_property camel (prop_name, vals) g = OK g' →
  property_type camel prop_name vals = snake_to_upper_camel prop_name ∧
  property_enums camel (prop_name, vals) = [] ∧
  end_code g' = end_code g ∧
  state_code g'
  = state_code g +:+ "pub " +:+ process_property_name prop_name +:+ ": " +:+
    snake_to_upper_camel prop_name +:+ "," +:+ Py.nl.
Proof.
  intros Hknown Hrun.
  assert (property_type camel prop_name vals = snake_to_upper_camel prop_name)
    as Htype.
  { unfold property_type. by rewrite Hknown, camel_is_not_enum_marker. }
  assert (property_enums camel (prop_name, vals) = []) as Henums.
  { unfold property_enums, declares_enum. cbn [fst snd].
    by rewrite Hknown, camel_is_not_enum_marker. }
  apply gen_property_delta in Hrun as ->. unfold property_delta.
  cbn [fst snd end_code state_code gapp]. rewrite Htype, Henums.
  split; [done|]. split; [done|]. split; [by rewrite str_app_nil_r|].
  unfold_render. cbn [fst snd]. by str_norm.
Qed.

Lemma known_property_uses_shared_enum_witness :
  property_type "OakLog" "axis" ["x"; "y"; "z"] = "Axis" ∧
  property_enums "OakLog" ("axis", ["x"; "y"; "z"]) = [].
Proof.
  destruct (known_property_uses_shared_enum "OakLog" "axis" ["x"; "y"; "z"]
              initial_state
              (gapp initial_state
                 (property_delta "OakLog" ("axis", ["x"; "y"; "z"]))))
    as (Htype & Henums & _).
  - reflexivity.
  - vm_compute. reflexivity.
  - split; [exact Htype|exact Henums].
Defined.

(** ** Types of fields and of literals *)

Lemma lit_type_prop_lit (camel prop_name v0 v : string) (vals : list string) :
  get_type_from_value v = get_type_from_value v0 →
  Py.elem prop_name KNOWN_PROPERTIES = false
    ∨ get_type_from_value v0 = "_enum" →
  lit_type (prop_lit camel prop_name v)
  = property_type camel prop_name (v0 :: vals).
Proof.
  intros Hsame Hcase. unfold prop_lit, property_type.
  cbn [head default]. change (id v0) with v0. rewrite Hsame.
  destruct (Py.elem prop_name KNOWN_PROPERTIES) eqn:Hknown.
  - destruct Hcase as [?| ->]; [done|].
    rewrite camel_is_not_enum_marker.
    by change (String.eqb "_enum" "_enum") with true.
  - destruct (get_type_from_value_cases v0)
      as [[-> _]|[(-> & _)|(-> & _)]]; done.
Qed.

(** X14: take a property whose first value has the same kind (boolean,
    digits, symbolic) as the value a state gives it, the name not being a
    known one unless the values are symbolic. Then the type [ty] written
    for the field of the data struct and the text written for the value
    in the arms agree: the text is [true] or [false] when [ty] is [bool],
    a run of digits when [ty] is [i32], and a variant of the enum [ty]
    otherwise. *)
Theorem literal_has_field_type
    (camel prop_name v0 v : string) (vals : list string)
    (count : nat) (state_if_code : string) (g g1 g2 : gen_state) :
  get_type_from_value v = get_type_from_value v0 →
  Py.elem prop_name KNOWN_PROPERTIES = false
    ∨ get_type_from_value v0 = "_enum" →
  gen_property camel (prop_name, v0 :: vals) g = OK g1 →
  ∃ ty,
    state_code g1
      = state_code g +:+ "pub " +:+ process_property_name prop_name +:+
        ": " +:+ ty +:+ "," +:+ Py.nl ∧
    from_block_state_id_code
      (gen_state_property camel (count, state_if_code, g2) (prop_name, v)).2
      = from_block_state_id_code g2 +:+ process_property_name prop_name +:+
        ": " +:+ rust_prop_val camel prop_name v +:+ "," +:+ Py.nl ∧
    (ty = "bool" ∧ (rust_prop_val camel prop_name v = "true"
                    ∨ rust_prop_val camel prop_name v = "false")
     ∨ ty = "i32" ∧ Py.isdigit (rust_prop_val camel prop_name v) = true
     ∨ get_type_from_value v = "_enum" ∧
       rust_prop_val camel prop_name v
       = ty +:+ "::" +:+ snake_to_upper_camel v).
Proof.
  intros Hsame Hcase Hrun.
  exists (property_type camel prop_name (v0 :: vals)).
  apply gen_property_delta in Hrun as ->. split; [|split].
  - unfold property_delta. cbn [state_code gapp fst snd]. unfold_render.
    cbn [fst snd]. by str_norm.
  - cbn [gen_state_property snd from_block_state_id_code
         add_from_block_state_id_code]. by str_norm.
  - rewrite <-(lit_type_prop_lit camel prop_name v0 v vals Hsame Hcase).
    rewrite <-render_prop_lit. unfold prop_lit.
    destruct (get_type_from_value_cases v)
      as [[Hty [-> | ->]]|[(Hty & _ & _ & Hdigit)|(Hty & _)]].
    + left. by rewrite Hty; auto.
    + left. by rewrite Hty; auto.
    + right. left. by rewrite Hty.
    + right. right. by rewrite Hty.
Qed.

Lemma literal_has_field_type_witness :
  ∃ ty,
    state_code (gapp initial_state
                  (property_delta "StoneSlab"
                     ("type", ["top"; "bottom"; "double"])))
      = state_code initial_state +:+ "pub " +:+ "type_" +:+
        ": " +:+ ty +:+ "," +:+ Py.nl ∧
    from_block_state_id_code
      (gen_state_property "StoneSlab" (0, "", initial_state)
         ("type", "double")).2
      = from_block_state_id_code initial_state +:+ "type_" +:+
        ": " +:+ "StoneSlabType::Double" +:+ "," +:+ Py.nl ∧
    (ty = "bool" ∧ ("StoneSlabType::Double" = "true"
                    ∨ "StoneSlabType::Double" = "false")
     ∨ ty = "i32" ∧ Py.isdigit "StoneSlabType::Double" = true
     ∨ get_type_from_value "double" = "_enum" ∧
       "StoneSlabType::Double" = ty +:+ "::" +:+ "Double").
Proof.
  apply (literal_has_field_type "StoneSlab" "type" "top" "double"
           ["bottom"; "double"] 0 "" initial_state
           (gapp initial_state
              (property_delta "StoneSlab"
                 ("type", ["top"; "bottom"; "double"])))
           initial_state).
  - reflexivity.
  - left. reflexivity.
  - vm_compute. reflexivity.
Defined.

(** ** The text of [property_names] *)

(** X15: for a block that does not have exactly one state, what the
    generator adds to [property_names] is one arm for the variant of the
    block with one [m.insert] per property that the block declares, in the
    order of the declaration; key and field are both the field name that
    [process_property_name] gives. The properties listed in the states
    play no part. *)
Theorem property_names_text_lists_declared_properties
    (entry : string * BlockObj) (g g' : gen_state) :
  gen_block entry g = OK g' →
  single_state entry.2 = false →
  properties entry.2 = Some (block_properties entry.2) ∧
  property_names_code g'
  = property_names_code g +:+
    "Block::" +:+ variant_name entry.1 +:+ "(data) => {" +:+ Py.nl +:+
    Rust.cat ((λ p : string * list string,
                 "m.insert(" +:+ Py.dq +:+ process_property_name p.1 +:+
                 Py.dq +:+ ", (&format!(" +:+ Py.dq +:+ "{:?}" +:+ Py.dq +:+
                 ", data." +:+ process_property_name p.1 +:+
                 ")).to_snake_case().as_str());")
              <$> block_properties entry.2) +:+
    "}," +:+ Py.nl.
Proof.
  intros Hrun Hsingle. split.
  - assert (block_ok entry.2 = true) as Hok
      by (apply (gen_block_ok entry g); by eexists).
    unfold block_ok in Hok. rewrite Hsingle in Hok. cbn [orb] in Hok.
    unfold block_properties. by destruct (properties entry.2).
  - apply gen_block_delta in Hrun as ->.
    unfold block_delta, block_property_arms. rewrite Hsingle.
    cbn [property_names_code gapp fmap list_fmap]. rewrite cat_cons, cat_nil.
    unfold Rust.render_property_arm. cbn [fst snd].
    rewrite <-list_fmap_compose. str_norm. done.
Qed.

Lemma property_names_text_lists_declared_properties_witness :
  property_names_code (gapp initial_state (block_delta oak_log_entry))
  = property_names_code_header +:+
    "Block::OakLog(data) => {" +:+ Py.nl +:+
    "m.insert(" +:+ Py.dq +:+ "axis" +:+ Py.dq +:+ ", (&format!(" +:+
    Py.dq +:+ "{:?}" +:+ Py.dq +:+
    ", data.axis)).to_snake_case().as_str());" +:+
    "}," +:+ Py.nl.
Proof.
  refine (proj2 (property_names_text_lists_declared_properties oak_log_entry
            initial_state (gapp initial_state (block_delta oak_log_entry))
            _ _)).
  - vm_compute. reflexivity.
  - reflexivity.
Defined.

(** ** Documents put together *)

Lemma arms_text_app (data1 data2 : Data) :
  arms_text (data1 ++ data2) = gapp (arms_text data1) (arms_text data2).
Proof.
  rewrite <-!gconcat_block_delta, fmap_app. unfold gconcat.
  induction (block_delta <$> data1) as [|d ds IH]; cbn [app foldr].
  - destruct (foldr gapp gempty (block_delta <$> data2)). done.
  - by rewrite IH, gapp_assoc.
Qed.

(** X16: the generator works block by block: it accepts two documents put
    one after the other exactly when it accepts each of them, and then
    every buffer holds the fixed opening, what the first document adds,
    what the second adds, and the fixed closing; what a block adds does
    not depend on the blocks around it. *)
Theorem generate_app (data1 data2 : Data) :
  (is_OK (generate (data1 ++ data2))
   ↔ is_OK (generate data1) ∧ is_OK (generate data2)) ∧
  (∀ g, generate (data1 ++ data2) = OK g →
        generate data1 = OK (finish (gapp initial_state (arms_text data1))) ∧
        generate data2 = OK (finish (gapp initial_state (arms_text data2))) ∧
        g = finish (gapp (gapp initial_state (arms_text data1))
                         (arms_text data2))).
Proof.
  assert (is_OK (generate (data1 ++ data2))
          ↔ is_OK (generate data1) ∧ is_OK (generate data2)) as Hok.
  { rewrite !generate_ok, forallb_app. apply andb_true_iff. }
  split; [done|]. intros g Hgen.
  destruct (proj1 Hok) as [[g1 Hgen1] [g2 Hgen2]]; [by eexists|].
  split; [|split].
  - rewrite Hgen1. f_equal. by apply generate_arms_text.
  - rewrite Hgen2. f_equal. by apply generate_arms_text.
  - apply generate_arms_text in Hgen as ->.
    by rewrite arms_text_app, gapp_assoc.
Qed.

(** ** What [name] returns *)


